(** * GestureCanvas: the gesture-to-stroke pipeline of [gesture_typing.py]

    A shallow embedding of class [GestureDrawingBoard]: the finger-state
    classifier ([detect_fingers_mediapipe]), the stroke renderer
    ([draw_on_canvas], [reset_last_points]), the canvas ([init_canvas]) and
    the body of the main loop ([run]) together with the mouse callback
    ([handle_mouse]).

    Conventions.
    - Python [int] is [Z]; array sizes are [nat]; Python [float] is the
      kernel's binary64 type [float], so comparisons and roundings are the
      ones the interpreter performs.
    - [None] is [None]: the cursor coordinates returned by the classifier
      are [option Z], the two stroke slots are [option Point].
    - OpenCV and MediaPipe are collaborators outside the repository.  A call
      of [cv2.circle] or [cv2.line] on the canvas is recorded with the
      arguments the source passes, and is taken to return; what
      [hands.process] returns for a frame, what [cap.read] and
      [cv2.waitKey] return, are inputs of the loop.
    - The C library is a collaborator too.  [x ** 2] on a float ends in
      the library's [pow], whose rounding C leaves to the platform, so the
      model takes the library as a parameter ([Libm]) and every general
      statement holds for all of them.
    - Display code ([draw_ui], blending, the FPS counter) reads the board
      and does not write the fields kept here.  It can leave the [try]
      block of the loop, though: [draw_ui] raises on a frame narrower than
      its 400-pixel panel, and an OpenCV call or Ctrl-C may end the display
      of an iteration; the loop body follows both [except] clauses from
      there.  The calls that come before the display in an iteration
      ([cap.read], [cv2.flip], [np.zeros]) are taken to return. *)

From Stdlib Require Import ZArith List String Bool Lia Floats.
From stdpp Require Import base list.

Open Scope Z_scope.

(* ================================================================= *)
(** ** Numbers *)

(** The platform's C library, at the one call the program reaches:
    [pow_2 x] is the value [pow(x, 2.0)] returns together with the [errno]
    the call leaves (0 when it sets none). *)
Class Libm := { pow_2 : float -> float * Z }.

Definition ERANGE : Z := 34.

Module Py.

(** [float(n)] for a Python integer: round to nearest, ties to even. *)
Definition float_of_int (n : Z) : float :=
  SF2Prim (binary_normalize prec emax n 0 false).

(** [int(f)]: truncation towards zero; [None] stands for the [ValueError]
    (NaN) and [OverflowError] (infinity) the conversion raises. *)
Definition int_of_float (f : float) : option Z :=
  match Prim2SF f with
  | S754_zero _ => Some 0
  | S754_finite s m e =>
      let a := Z.shiftl (Z.pos m) e in
      Some (if s then - a else a)
  | S754_infinity _ | S754_nan => None
  end.

(** Truthiness of a value that is [None] or an integer. *)
Definition truthy (v : option Z) : bool :=
  match v with
  | None => false
  | Some n => negb (n =? 0)
  end.

(** [x ** 2] on a float, as [float_pow] of the interpreter computes it for
    the exponent [2.0]: a NaN is returned as it is, an infinity gives
    [+inf], a zero gives [0.0]; a negative base is replaced by its absolute
    value (the exponent is even), the base [1.0] gives [1.0]; every other
    base goes to the C library's [pow].  The interpreter then adjusts
    [errno] (an infinite result counts as a range error, a range error
    with result zero does not) and raises [OverflowError] or [ValueError]
    when it is set: that is [None]. *)
Definition sq `{Libm} (x : float) : option float :=
  if is_nan x then Some x
  else if is_infinity x then Some (abs x)
  else if (x =? 0)%float then Some 0%float
  else
    let iv := if (x <? 0)%float then (- x)%float else x in
    if (iv =? 1)%float then Some 1%float
    else
      let '(ix, errno) := pow_2 iv in
      let errno :=
        if errno =? 0 then (if is_infinity ix then ERANGE else 0)
        else if (errno =? ERANGE) && (ix =? 0)%float then 0
        else errno in
      if errno =? 0 then Some ix else None.

(** [math.sqrt(x)]: the correctly rounded square root; [None] is the
    [ValueError] raised when the result is a NaN that the argument was
    not, or an infinity for a finite argument. *)
Definition math_sqrt (x : float) : option float :=
  let r := sqrt x in
  if is_nan r && negb (is_nan x) then None
  else if is_infinity r && negb (is_nan x || is_infinity x) then None
  else Some r.

End Py.

(** The literals [0.08], [0.02] and [100] as the interpreter reads them
    (nearest binary64 value). *)
Definition THUMB_THRESHOLD : float := 0x1.47ae147ae147bp-4%float.
Definition FINGER_MARGIN : float := 0x1.47ae147ae147bp-6%float.
Definition MAX_JUMP : float := 100%float.

(* ================================================================= *)
(** ** Canvas *)

Definition Color : Type := Z * Z * Z.
Definition Point : Type := Z * Z.

(** A [height x width x 3] array of [uint8], kept with its shape. *)
Record ndarray := { shape : nat * nat; rows : list (list Color) }.

Definition np_zeros (height width : nat) : ndarray :=
  {| shape := (height, width);
     rows := replicate height (replicate width (0, 0, 0)) |}.

(** [a[:] = c] *)
Definition assign_all (a : ndarray) (c : Color) : ndarray :=
  {| shape := shape a; rows := map (map (fun _ => c)) (rows a) |}.

Definition pixel (a : ndarray) (r c : nat) : option Color :=
  match rows a !! r with
  | Some row => row !! c
  | None => None
  end.

Inductive cv2_call : Type :=
| cv2_circle (center : Point) (radius : Z) (color : Color) (thickness : Z)
| cv2_line (pt1 pt2 : Point) (color : Color) (thickness : Z).

(** The array made by the last [init_canvas] and the drawing calls applied
    to it since, oldest first. *)
Record Canvas := { base : ndarray; calls : list cv2_call }.

Definition cv2_apply (c : Canvas) (op : cv2_call) : Canvas :=
  {| base := base c; calls := calls c ++ [op] |}.

(* ================================================================= *)
(** ** The board *)

Record Board := {
  FINGERS_FOR_DRAW : Z;
  FINGERS_FOR_ERASE : Z;
  SCREEN_WIDTH : nat;
  SCREEN_HEIGHT : nat;
  cap_opened : bool;              (* self.cap and self.cap.isOpened() *)
  drawing_mode : bool;
  current_color : Color;
  brush_size : Z;
  eraser_size : Z;
  canvas : Canvas;
  hand_pos : Point;
  is_drawing : bool;
  last_draw_point : option Point;
  last_erase_point : option Point;
  mouse_mode : bool;
  fullscreen : bool
}.

Definition set_SCREEN (w h : nat) (self : Board) : Board :=
  {| FINGERS_FOR_DRAW := FINGERS_FOR_DRAW self;
     FINGERS_FOR_ERASE := FINGERS_FOR_ERASE self; SCREEN_WIDTH := w;
     SCREEN_HEIGHT := h; cap_opened := cap_opened self;
     drawing_mode := drawing_mode self; current_color := current_color self;
     brush_size := brush_size self; eraser_size := eraser_size self;
     canvas := canvas self; hand_pos := hand_pos self;
     is_drawing := is_drawing self; last_draw_point := last_draw_point self;
     last_erase_point := last_erase_point self;
     mouse_mode := mouse_mode self; fullscreen := fullscreen self |}.

Definition set_drawing_mode (v : bool) (self : Board) : Board :=
  {| FINGERS_FOR_DRAW := FINGERS_FOR_DRAW self;
     FINGERS_FOR_ERASE := FINGERS_FOR_ERASE self;
     SCREEN_WIDTH := SCREEN_WIDTH self; SCREEN_HEIGHT := SCREEN_HEIGHT self;
     cap_opened := cap_opened self; drawing_mode := v;
     current_color := current_color self; brush_size := brush_size self;
     eraser_size := eraser_size self; canvas := canvas self;
     hand_pos := hand_pos self; is_drawing := is_drawing self;
     last_draw_point := last_draw_point self;
     last_erase_point := last_erase_point self;
     mouse_mode := mouse_mode self; fullscreen := fullscreen self |}.

Definition set_current_color (v : Color) (self : Board) : Board :=
  {| FINGERS_FOR_DRAW := FINGERS_FOR_DRAW self;
     FINGERS_FOR_ERASE := FINGERS_FOR_ERASE self;
     SCREEN_WIDTH := SCREEN_WIDTH self; SCREEN_HEIGHT := SCREEN_HEIGHT self;
     cap_opened := cap_opened self; drawing_mode := drawing_mode self;
     current_color := v; brush_size := brush_size self;
     eraser_size := eraser_size self; canvas := canvas self;
     hand_pos := hand_pos self; is_drawing := is_drawing self;
     last_draw_point := last_draw_point self;
     last_erase_point := last_erase_point self;
     mouse_mode := mouse_mode self; fullscreen := fullscreen self |}.

Definition set_brush_size (v : Z) (self : Board) : Board :=
  {| FINGERS_FOR_DRAW := FINGERS_FOR_DRAW self;
     FINGERS_FOR_ERASE := FINGERS_FOR_ERASE self;
     SCREEN_WIDTH := SCREEN_WIDTH self; SCREEN_HEIGHT := SCREEN_HEIGHT self;
     cap_opened := cap_opened self; drawing_mode := drawing_mode self;
     current_color := current_color self; brush_size := v;
     eraser_size := eraser_size self; canvas := canvas self;
     hand_pos := hand_pos self; is_drawing := is_drawing self;
     last_draw_point := last_draw_point self;
     last_erase_point := last_erase_point self;
     mouse_mode := mouse_mode self; fullscreen := fullscreen self |}.

Definition set_canvas (v : Canvas) (self : Board) : Board :=
  {| FINGERS_FOR_DRAW := FINGERS_FOR_DRAW self;
     FINGERS_FOR_ERASE := FINGERS_FOR_ERASE self;
     SCREEN_WIDTH := SCREEN_WIDTH self; SCREEN_HEIGHT := SCREEN_HEIGHT self;
     cap_opened := cap_opened self; drawing_mode := drawing_mode self;
     current_color := current_color self; brush_size := brush_size self;
     eraser_size := eraser_size self; canvas := v; hand_pos := hand_pos self;
     is_drawing := is_drawing self; last_draw_point := last_draw_point self;
     last_erase_point := last_erase_point self;
     mouse_mode := mouse_mode self; fullscreen := fullscreen self |}.

Definition set_hand_pos (v : Point) (self : Board) : Board :=
  {| FINGERS_FOR_DRAW := FINGERS_FOR_DRAW self;
     FINGERS_FOR_ERASE := FINGERS_FOR_ERASE self;
     SCREEN_WIDTH := SCREEN_WIDTH self; SCREEN_HEIGHT := SCREEN_HEIGHT self;
     cap_opened := cap_opened self; drawing_mode := drawing_mode self;
     current_color := current_color self; brush_size := brush_size self;
     eraser_size := eraser_size self; canvas := canvas self; hand_pos := v;
     is_drawing := is_drawing self; last_draw_point := last_draw_point self;
     last_erase_point := last_erase_point self;
     mouse_mode := mouse_mode self; fullscreen := fullscreen self |}.

Definition set_is_drawing (v : bool) (self : Board) : Board :=
  {| FINGERS_FOR_DRAW := FINGERS_FOR_DRAW self;
     FINGERS_FOR_ERASE := FINGERS_FOR_ERASE self;
     SCREEN_WIDTH := SCREEN_WIDTH self; SCREEN_HEIGHT := SCREEN_HEIGHT self;
     cap_opened := cap_opened self; drawing_mode := drawing_mode self;
     current_color := current_color self; brush_size := brush_size self;
     eraser_size := eraser_size self; canvas := canvas self;
     hand_pos := hand_pos self; is_drawing := v;
     last_draw_point := last_draw_point self;
     last_erase_point := last_erase_point self;
     mouse_mode := mouse_mode self; fullscreen := fullscreen self |}.

Definition set_last_draw_point (v : option Point) (self : Board) : Board :=
  {| FINGERS_FOR_DRAW := FINGERS_FOR_DRAW self;
     FINGERS_FOR_ERASE := FINGERS_FOR_ERASE self;
     SCREEN_WIDTH := SCREEN_WIDTH self; SCREEN_HEIGHT := SCREEN_HEIGHT self;
     cap_opened := cap_opened self; drawing_mode := drawing_mode self;
     current_color := current_color self; brush_size := brush_size self;
     eraser_size := eraser_size self; canvas := canvas self;
     hand_pos := hand_pos self; is_drawing := is_drawing self;
     last_draw_point := v; last_erase_point := last_erase_point self;
     mouse_mode := mouse_mode self; fullscreen := fullscreen self |}.

Definition set_last_erase_point (v : option Point) (self : Board) : Board :=
  {| FINGERS_FOR_DRAW := FINGERS_FOR_DRAW self;
     FINGERS_FOR_ERASE := FINGERS_FOR_ERASE self;
     SCREEN_WIDTH := SCREEN_WIDTH self; SCREEN_HEIGHT := SCREEN_HEIGHT self;
     cap_opened := cap_opened self; drawing_mode := drawing_mode self;
     current_color := current_color self; brush_size := brush_size self;
     eraser_size := eraser_size self; canvas := canvas self;
     hand_pos := hand_pos self; is_drawing := is_drawing self;
     last_draw_point := last_draw_point self; last_erase_point := v;
     mouse_mode := mouse_mode self; fullscreen := fullscreen self |}.

Definition set_mouse_mode (v : bool) (self : Board) : Board :=
  {| FINGERS_FOR_DRAW := FINGERS_FOR_DRAW self;
     FINGERS_FOR_ERASE := FINGERS_FOR_ERASE self;
     SCREEN_WIDTH := SCREEN_WIDTH self; SCREEN_HEIGHT := SCREEN_HEIGHT self;
     cap_opened := cap_opened self; drawing_mode := drawing_mode self;
     current_color := current_color self; brush_size := brush_size self;
     eraser_size := eraser_size self; canvas := canvas self;
     hand_pos := hand_pos self; is_drawing := is_drawing self;
     last_draw_point := last_draw_point self;
     last_erase_point := last_erase_point self; mouse_mode := v;
     fullscreen := fullscreen self |}.

Definition set_fullscreen (v : bool) (self : Board) : Board :=
  {| FINGERS_FOR_DRAW := FINGERS_FOR_DRAW self;
     FINGERS_FOR_ERASE := FINGERS_FOR_ERASE self;
     SCREEN_WIDTH := SCREEN_WIDTH self; SCREEN_HEIGHT := SCREEN_HEIGHT self;
     cap_opened := cap_opened self; drawing_mode := drawing_mode self;
     current_color := current_color self; brush_size := brush_size self;
     eraser_size := eraser_size self; canvas := canvas self;
     hand_pos := hand_pos self; is_drawing := is_drawing self;
     last_draw_point := last_draw_point self;
     last_erase_point := last_erase_point self;
     mouse_mode := mouse_mode self; fullscreen := v |}.

(** The dark gray the source writes as [(20, 20, 20)], in [init_canvas] and
    again in the erase branch of [draw_on_canvas]. *)
Definition dark_gray : Color := (20, 20, 20).

(** [init_canvas(self, width, height)] *)
Definition init_canvas (self : Board) (width height : nat) : Board :=
  set_canvas
    {| base := assign_all (np_zeros height width) dark_gray; calls := [] |}
    self.

(** [reset_last_points(self)] *)
Definition reset_last_points (self : Board) : Board :=
  set_last_erase_point None (set_last_draw_point None self).

(** [math.sqrt((x2 - x1)**2 + (y2 - y1)**2)]: the sum of squares is an exact
    integer, converted to a float by [math.sqrt].  (The conversion raises
    only above 1e308, far beyond the C [int] coordinates [cv2.circle] has
    accepted on the line before.) *)
Definition distance (x1 y1 x2 y2 : Z) : float :=
  sqrt (Py.float_of_int ((x2 - x1) ^ 2 + (y2 - y1) ^ 2)).

(** [draw_on_canvas(self, x, y, mode)] *)
Definition draw_on_canvas (self : Board) (x y : Z) (mode : string) : Board :=
  if String.eqb mode "draw" then
    let self :=
      set_canvas
        (cv2_apply (canvas self)
           (cv2_circle (x, y) (brush_size self) (current_color self) (-1)))
        self in
    let self :=
      match last_draw_point self with
      | Some (x1, y1) =>
          let '(x2, y2) := (x, y) in
          if (distance x1 y1 x2 y2 <? MAX_JUMP)%float then
            set_canvas
              (cv2_apply (canvas self)
                 (cv2_line (x1, y1) (x2, y2) (current_color self)
                    (brush_size self * 2)))
              self
          else self
      | None => self
      end in
    set_last_draw_point (Some (x, y)) self
  else if String.eqb mode "erase" then
    let self :=
      set_canvas
        (cv2_apply (canvas self)
           (cv2_circle (x, y) (eraser_size self) (20, 20, 20) (-1)))
        self in
    let self :=
      match last_erase_point self with
      | Some (x1, y1) =>
          let '(x2, y2) := (x, y) in
          if (distance x1 y1 x2 y2 <? MAX_JUMP)%float then
            set_canvas
              (cv2_apply (canvas self)
                 (cv2_line (x1, y1) (x2, y2) (20, 20, 20) (eraser_size self)))
              self
          else self
      | None => self
      end in
    set_last_erase_point (Some (x, y)) self
  else self.

(* ================================================================= *)
(** ** The finger-state classifier *)

Module Landmark.
Record t := { x : float; y : float }.
End Landmark.

(** What [hands.process(rgb_frame)] does on a frame: it raises, or returns
    a result whose [multi_hand_landmarks] is [None] or a list of hands, each
    with its [landmark] list. *)
Inductive HandsOutput : Type :=
| process_raises
| process_returns (multi_hand_landmarks : option (list (list Landmark.t))).

Definition finger_tips : list nat := [4; 8; 12; 16; 20]%nat.
Definition finger_pips : list nat := [3; 6; 10; 14; 18]%nat.

(** The test of finger [i] in the loop body; [None] is an exception: the
    [IndexError] of a missing landmark, or what the thumb arithmetic
    raises. *)
Definition is_extended `{Libm} (landmark : list Landmark.t) (i : nat)
  : option bool :=
  tip_i ← finger_tips !! i;
  pip_i ← finger_pips !! i;
  tip ← landmark !! tip_i;
  pip ← landmark !! pip_i;
  if (i =? 0)%nat then
    thumb_tip ← landmark !! 4%nat;
    thumb_ip ← landmark !! 3%nat;
    dx2 ← Py.sq (Landmark.x thumb_tip - Landmark.x thumb_ip)%float;
    dy2 ← Py.sq (Landmark.y thumb_tip - Landmark.y thumb_ip)%float;
    dist_tip_ip ← Py.math_sqrt (dx2 + dy2)%float;
    Some (THUMB_THRESHOLD <? dist_tip_ip)%float
  else
    Some (Landmark.y tip <? Landmark.y pip - FINGER_MARGIN)%float.

(** [for i in range(5): ...] with its two accumulators. *)
Fixpoint count_loop `{Libm} (landmark : list Landmark.t) (range : list nat)
    (finger_count : Z) (extended_fingers : list nat)
  : option (Z * list nat) :=
  match range with
  | [] => Some (finger_count, extended_fingers)
  | i :: range' =>
      b ← is_extended landmark i;
      if b : bool
      then count_loop landmark range' (finger_count + 1)
             (extended_fingers ++ [i])
      else count_loop landmark range' finger_count extended_fingers
  end.

(** The body of the [if results.multi_hand_landmarks:] block, for the first
    hand; [None] when a statement of it raises. *)
Definition detect_hand `{Libm} (h w : nat) (landmark : list Landmark.t)
  : option (Z * Z * Z * list nat) :=
  index_tip ← landmark !! 8%nat;
  hand_x ← Py.int_of_float
             (Landmark.x index_tip * Py.float_of_int (Z.of_nat w))%float;
  hand_y ← Py.int_of_float
             (Landmark.y index_tip * Py.float_of_int (Z.of_nat h))%float;
  '(finger_count, extended_fingers) ← count_loop landmark (seq 0 5) 0 [];
  Some (hand_x, hand_y, finger_count, extended_fingers).

(** [detect_fingers_mediapipe(self, frame, hands)] for a frame of shape
    [(h, w)]: every exception of the [try] block ends at the final
    [return None, None, 0, []]. *)
Definition detect_fingers_mediapipe `{Libm} (h w : nat) (out : HandsOutput)
  : option Z * option Z * Z * list nat :=
  match out with
  | process_returns (Some (hand_landmarks :: _)) =>
      match detect_hand h w hand_landmarks with
      | Some (hand_x, hand_y, finger_count, extended_fingers) =>
          (Some hand_x, Some hand_y, finger_count, extended_fingers)
      | None => (None, None, 0, [])
      end
  | process_returns (Some []) | process_returns None | process_raises =>
      (None, None, 0, [])
  end.

(* ================================================================= *)
(** ** Construction *)

Definition colors : list Color :=
  [ (0, 0, 255); (0, 255, 0); (255, 0, 0); (0, 255, 255);
    (255, 0, 255); (255, 255, 0); (255, 255, 255); (0, 0, 0) ].

(** [GestureDrawingBoard.__init__].  [init_camera] runs first and sets
    [mouse_mode = True] when no camera opens, but the later assignment
    [self.mouse_mode = False] of the UI block overwrites it: the board
    always starts with [mouse_mode = False], and a failed camera only shows
    in [cap_opened]. *)
Definition GestureDrawingBoard_init (camera_ok : bool) : Board :=
  init_canvas
    {| FINGERS_FOR_DRAW := 2;
       FINGERS_FOR_ERASE := 4;
       SCREEN_WIDTH := 1920;
       SCREEN_HEIGHT := 1080;
       cap_opened := camera_ok;
       drawing_mode := true;
       current_color := (0, 255, 0);
       brush_size := 8;
       eraser_size := 40;
       canvas := {| base := np_zeros 0 0; calls := [] |};
       hand_pos := (0, 0);
       is_drawing := false;
       last_draw_point := None;
       last_erase_point := None;
       mouse_mode := false;
       fullscreen := true |}
    1920 1080.

(* ================================================================= *)
(** ** The main loop *)

(** The board and the locals of [run] that live across iterations. *)
Record RunState := {
  board : Board;
  hands : bool;                 (* init_hand_tracking() returned a tracker *)
  mouse_callback : bool;        (* cv2.setMouseCallback was executed *)
  last_finger_count : Z
}.

Definition with_board (st : RunState) (b : Board) : RunState :=
  {| board := b; hands := hands st; mouse_callback := mouse_callback st;
     last_finger_count := last_finger_count st |}.

(** The prologue of [run], up to [last_finger_count = 0]. *)
Definition run_start (camera_ok hands_ok : bool) : RunState :=
  let self := GestureDrawingBoard_init camera_ok in
  {| board := self; hands := hands_ok; mouse_callback := mouse_mode self;
     last_finger_count := 0 |}.

(** Mouse events as OpenCV delivers them to the callback. *)
Record MouseEvent := { event : Z; mouse_x : Z; mouse_y : Z; flags : Z }.

Definition EVENT_MOUSEMOVE : Z := 0.
Definition EVENT_LBUTTONDOWN : Z := 1.
Definition EVENT_LBUTTONUP : Z := 4.
Definition EVENT_FLAG_LBUTTON : Z := 1.

(** [handle_mouse(self, event, x, y, flags, param)] *)
Definition handle_mouse (self : Board) (e : MouseEvent) : Board :=
  let x := mouse_x e in
  let y := mouse_y e in
  if event e =? EVENT_MOUSEMOVE then
    let self := set_hand_pos (x, y) self in
    if negb (Z.land (flags e) EVENT_FLAG_LBUTTON =? 0) then
      let mode := if drawing_mode self then "draw"%string else "erase"%string in
      draw_on_canvas self x y mode
    else self
  else if event e =? EVENT_LBUTTONDOWN then
    reset_last_points (set_is_drawing true self)
  else if event e =? EVENT_LBUTTONUP then
    reset_last_points (set_is_drawing false self)
  else self.

(** The two kinds of exception the [try] block of the loop tells apart. *)
Inductive Raised : Type :=
| KeyboardInterrupt               (* Ctrl-C: the clause of line 564 *)
| Exception.                      (* any other: the clause of line 567 *)

(** What one iteration of [while True] receives from outside. *)
Record LoopInput := {
  cap_read : option (nat * nat);   (* ret and the frame's (h, w) *)
  hands_output : HandsOutput;      (* hands.process on that frame *)
  raised : option Raised;          (* met while the frame is displayed *)
  mouse_events : list MouseEvent;  (* dispatched inside cv2.waitKey *)
  wait_key : Z                     (* cv2.waitKey(1) *)
}.

Inductive Control : Type := Continue | Break.

(** "Read frame from camera": the shape of the frame of this iteration, or
    [None] after the [continue] of a failed read. *)
Definition acquire (self : Board) (read : option (nat * nat))
  : Board * option (nat * nat) :=
  if negb (mouse_mode self) && cap_opened self then
    match read with
    | None => (set_mouse_mode true self, None)
    | Some hw => (self, Some hw)
    end
  else (self, Some (SCREEN_HEIGHT self, SCREEN_WIDTH self)).

(** "Update screen dimensions" and "Resize canvas if needed". *)
Definition resize_canvas (self : Board) (h w : nat) : Board :=
  let self := set_SCREEN w h self in
  if decide (shape (base (canvas self)) ≠ (h, w))
  then init_canvas self w h
  else self.

(** "Hand detection": the values of [hand_x, hand_y, finger_count]. *)
Definition read_gesture `{Libm} (self : Board) (hands : bool) (h w : nat)
    (out : HandsOutput) : option Z * option Z * Z :=
  if negb (mouse_mode self) && hands then
    let '(hand_x, hand_y, finger_count, _) :=
      detect_fingers_mediapipe h w out in
    (hand_x, hand_y, finger_count)
  else (None, None, 0).

(** "Detect gesture changes and reset points". *)
Definition gesture_change (st : RunState) (finger_count : Z) : RunState :=
  if negb (finger_count =? last_finger_count st) then
    {| board := reset_last_points (board st); hands := hands st;
       mouse_callback := mouse_callback st;
       last_finger_count := finger_count |}
  else st.

(** "Handle gestures based on finger count". *)
Definition handle_gestures (self : Board) (hand_x hand_y : option Z)
    (finger_count : Z) : Board :=
  if Py.truthy hand_x && Py.truthy hand_y && negb (mouse_mode self) then
    match hand_x, hand_y with
    | Some hand_x, Some hand_y =>
        let self := set_hand_pos (hand_x, hand_y) self in
        if finger_count =? FINGERS_FOR_DRAW self then
          if drawing_mode self
          then draw_on_canvas self hand_x hand_y "draw"
          else self
        else if finger_count >=? FINGERS_FOR_ERASE self then
          draw_on_canvas self hand_x hand_y "erase"
        else reset_last_points self
    | _, _ => self
    end
  else self.

(** The state in which "Handle gestures" starts on a frame of shape
    [(h, w)], with the gesture read from the frame. *)
Definition before_gestures `{Libm} (st : RunState) (h w : nat)
    (out : HandsOutput)
  : RunState * (option Z * option Z * Z) :=
  let self := resize_canvas (board st) h w in
  let '(hand_x, hand_y, finger_count) :=
    read_gesture self (hands st) h w out in
  (gesture_change (with_board st self) finger_count,
   (hand_x, hand_y, finger_count)).

(** One frame, from "Resize canvas if needed" to the end of "Handle
    gestures". *)
Definition tick `{Libm} (st : RunState) (h w : nat) (out : HandsOutput)
  : RunState :=
  let '(st, (hand_x, hand_y, finger_count)) := before_gestures st h w out in
  with_board st (handle_gestures (board st) hand_x hand_y finger_count).

Definition sizes : list Z := [5; 8; 12; 20; 30; 50].

(** [l.index(v) if v in l else 0] *)
Definition index_or_0 `{EqDecision A} (v : A) (l : list A) : nat :=
  match list_find (fun a => a = v) l with
  | Some (i, _) => i
  | None => 0%nat
  end.

(** "Handle keyboard input", for [key = cv2.waitKey(1) & 0xFF]. *)
Definition handle_key (self : Board) (h w : nat) (key : Z) : Board * Control :=
  if key =? 27 then (self, Break)
  else if key =? 32 (* ' ' *) then
    (reset_last_points (set_drawing_mode (negb (drawing_mode self)) self),
     Continue)
  else if key =? 99 (* 'c' *) then
    let current_idx := index_or_0 (current_color self) colors in
    match colors !! ((current_idx + 1) mod length colors)%nat with
    | Some c => (set_current_color c self, Continue)
    | None => (self, Continue)
    end
  else if key =? 115 (* 's' *) then
    let current_idx := index_or_0 (brush_size self) sizes in
    match sizes !! ((current_idx + 1) mod length sizes)%nat with
    | Some s => (set_brush_size s self, Continue)
    | None => (self, Continue)
    end
  else if key =? 102 (* 'f' *) then
    (set_fullscreen (negb (fullscreen self)) self, Continue)
  else if key =? 112 (* 'p': cv2.imwrite, the board is unchanged *) then
    (self, Continue)
  else if key =? 114 (* 'r' *) then
    (reset_last_points (init_canvas self w h), Continue)
  else (self, Continue).

(** "Blend canvas with camera feed" to [cv2.waitKey] (lines 505-523) on a
    frame [w] pixels wide: the exception that ends them, or [None] when
    they run through and the key is read.  What comes from outside (Ctrl-C,
    an OpenCV call that fails) is the input [raised]; left alone, [draw_ui]
    (always called: [ui_visible] is [True] from the constructor on) blends
    the columns [0:400] of the frame with a panel 400 wide, and
    [cv2.addWeighted] raises when the frame has fewer columns. *)
Definition display (w : nat) (raised : option Raised) : option Raised :=
  match raised with
  | Some e => Some e
  | None => if (w <? 400)%nat then Some Exception else None
  end.

(** The body of [while True], with its two [except] clauses: an exception
    of the display ends the iteration after the gesture logic, before any
    key is read, and the loop goes on; [KeyboardInterrupt] leaves the
    loop. *)
Definition loop_body `{Libm} (st : RunState) (inp : LoopInput)
  : RunState * Control :=
  match acquire (board st) (cap_read inp) with
  | (self, None) => (with_board st self, Continue)
  | (self, Some (h, w)) =>
      let st := tick (with_board st self) h w (hands_output inp) in
      match display w (raised inp) with
      | Some KeyboardInterrupt => (st, Break)
      | Some Exception => (st, Continue)
      | None =>
          let self :=
            if mouse_callback st
            then fold_left handle_mouse (mouse_events inp) (board st)
            else board st in
          let '(self, ctl) :=
            handle_key self h w (Z.land (wait_key inp) 255) in
          (with_board st self, ctl)
      end
  end.

(** The states [run] passes through at the top of its loop. *)
Inductive reachable `{Libm} : RunState -> Prop :=
| reachable_start camera_ok hands_ok :
    reachable (run_start camera_ok hands_ok)
| reachable_next st inp st' :
    reachable st -> loop_body st inp = (st', Continue) -> reachable st'.

(* ================================================================= *)
(** ** Vocabulary of the statements *)

(** The drawing calls a step has added to the canvas: those of [self']
    after the ones [self] already had. *)
Definition issued (self self' : Board) : list cv2_call :=
  drop (length (calls (canvas self))) (calls (canvas self')).

Section Strokes.

Variable self : Board.
Variables x y : Z.

(** The filled disk and the connecting line of a drawn sample at [(x, y)]. *)
Definition draw_disk : cv2_call :=
  cv2_circle (x, y) (brush_size self) (current_color self) (-1).

Definition draw_line (p : Point) : cv2_call :=
  cv2_line p (x, y) (current_color self) (2 * brush_size self).

(** The same for an erased sample, with the width the source passes. *)
Definition erase_disk : cv2_call :=
  cv2_circle (x, y) (eraser_size self) dark_gray (-1).

Definition erase_line (p : Point) : cv2_call :=
  cv2_line p (x, y) dark_gray (eraser_size self).

(** The jump guard: the floating-point distance from [p] to [(x, y)] is
    strictly below 100. *)
Definition within_jump (p : Point) : bool :=
  (distance p.1 p.2 x y <? MAX_JUMP)%float.

End Strokes.

(** [f] holds on each of the [p] integers from [s] on. *)
Fixpoint all_from (p : positive) (f : Z -> bool) (s : Z) : bool :=
  match p with
  | xH => f s
  | xO q => all_from q f s && all_from q f (s + Z.pos q)
  | xI q => f s && all_from q f (s + 1) && all_from q f (s + 1 + Z.pos q)
  end.

(** On a squared distance [d2], the floating-point guard and the integer
    comparison with 100 squared agree. *)
Definition guard_agrees (d2 : Z) : bool :=
  Bool.eqb (sqrt (Py.float_of_int d2) <? MAX_JUMP)%float (d2 <? 10000).

(** The mode the arbiter rules of the specification assign to a finger
    count under the board's base mode and thresholds (rules 1 to 3, first
    match wins).  The source has no such variable: it is compared below
    with the branch [handle_gestures] takes. *)
Inductive ActionMode : Type := Drawing | Erasing | Idle.

Definition action_mode (self : Board) (finger_count : Z) : ActionMode :=
  if (finger_count =? FINGERS_FOR_DRAW self) && drawing_mode self then Drawing
  else if finger_count >=? FINGERS_FOR_ERASE self then Erasing
  else Idle.

(** The frame of an iteration: the state in which "Handle gestures" starts
    and the gesture read, or [None] when the iteration ends at the
    [continue] of a failed camera read. *)
Definition enter_frame `{Libm} (st : RunState) (inp : LoopInput)
  : option (RunState * (option Z * option Z * Z)) :=
  match acquire (board st) (cap_read inp) with
  | (self, None) => None
  | (self, Some (h, w)) =>
      Some (before_gestures (with_board st self) h w (hands_output inp))
  end.

Definition count_of (g : option Z * option Z * Z) : Z := g.2.

(** Finger [i] passes its extension test. *)
Definition passes `{Libm} (landmark : list Landmark.t) (i : nat) : bool :=
  match is_extended landmark i with
  | Some b => b
  | None => false
  end.

(** The slots and the gesture with which "Handle gestures" starts in an
    iteration. *)
Definition slots_on_entry `{Libm} (st : RunState) (inp : LoopInput)
  : option (option Point * option Point * (option Z * option Z * Z)) :=
  match enter_frame st inp with
  | Some (st', g) =>
      Some (last_draw_point (board st'), last_erase_point (board st'), g)
  | None => None
  end.

(** A slot holds a point only while the last frame's finger count, under
    the current base mode, selects the slot's branch of the gesture logic:
    the draw slot under a count equal to [FINGERS_FOR_DRAW] in write mode,
    the erase slot under a different count at or above
    [FINGERS_FOR_ERASE]. *)
Definition slots_follow_mode (st : RunState) : Prop :=
  (last_draw_point (board st) <> None ->
     last_finger_count st = FINGERS_FOR_DRAW (board st)
     /\ drawing_mode (board st) = true)
  /\ (last_erase_point (board st) <> None ->
       last_finger_count st <> FINGERS_FOR_DRAW (board st)
       /\ last_finger_count st >= FINGERS_FOR_ERASE (board st)).

(** What every state of [run] satisfies: the mouse callback was not
    installed, the thresholds are the constructor's, and the slots follow
    the mode. *)
Definition run_invariant (st : RunState) : Prop :=
  mouse_callback st = false
  /\ FINGERS_FOR_DRAW (board st) = 2
  /\ FINGERS_FOR_ERASE (board st) = 4
  /\ slots_follow_mode st.

(** A board built with other thresholds than the two the constructor
    writes (the "configurable settings" block). *)
Definition with_thresholds (draw erase : Z) (self : Board) : Board :=
  {| FINGERS_FOR_DRAW := draw; FINGERS_FOR_ERASE := erase;
     SCREEN_WIDTH := SCREEN_WIDTH self; SCREEN_HEIGHT := SCREEN_HEIGHT self;
     cap_opened := cap_opened self; drawing_mode := drawing_mode self;
     current_color := current_color self; brush_size := brush_size self;
     eraser_size := eraser_size self; canvas := canvas self;
     hand_pos := hand_pos self; is_drawing := is_drawing self;
     last_draw_point := last_draw_point self;
     last_erase_point := last_erase_point self;
     mouse_mode := mouse_mode self; fullscreen := fullscreen self |}.

(* ================================================================= *)
(** ** Sample hands and frames *)

Module Sample.

(** A C library whose [pow(x, 2.0)] is the correctly rounded square, with
    [errno] set when the result overflows. *)
Definition correctly_rounded : Libm :=
  {| pow_2 := fun x =>
       let r := (x * x)%float in
       (r, if is_infinity r then ERANGE else 0) |}.

Definition at_ (x y : float) : Landmark.t := {| Landmark.x := x; Landmark.y := y |}.

(** A hand of 21 landmarks with the index fingertip at [index_tip], the
    index finger raised, and the other fingers raised as asked.  Joints
    that no test reads sit at the centre of the frame. *)
Definition hand (index_tip : Landmark.t) (thumb middle ring pinky : bool)
  : list Landmark.t :=
  let mid := at_ 0.5 0.5 in
  let up (b : bool) := if b then at_ 0.5 0.25 else mid in
  [ mid; mid; mid;
    at_ 0.5 0.75;                                         (* 3: thumb IP *)
    (if thumb then at_ 0.25 0.75 else at_ 0.5 0.75);      (* 4: thumb tip *)
    mid;
    at_ 0.5 0.75;                                         (* 6: index PIP *)
    mid;
    index_tip;                                            (* 8: index tip *)
    mid; mid (* 10 *); mid; up middle (* 12 *);
    mid; mid (* 14 *); mid; up ring (* 16 *);
    mid; mid (* 18 *); mid; up pinky (* 20 *) ].

(** Index fingertips that land on pixel columns 10, 15 and 0 and on pixel
    row 11 of a 1280 x 720 frame, and one at the far corner. *)
Definition tip_10_11 : Landmark.t := at_ 0.0078125 0.015625.
Definition tip_15_11 : Landmark.t := at_ 0.01171875 0.015625.
Definition tip_0_11 : Landmark.t := at_ 0.000244140625 0.015625.
Definition tip_far : Landmark.t := at_ 0.5 0.5.

Definition two_fingers (tip : Landmark.t) : HandsOutput :=
  process_returns (Some [hand tip false true false false]).
Definition three_fingers (tip : Landmark.t) : HandsOutput :=
  process_returns (Some [hand tip false true true false]).
Definition four_fingers (tip : Landmark.t) : HandsOutput :=
  process_returns (Some [hand tip false true true true]).
Definition no_hand : HandsOutput := process_returns None.

(** An iteration that reads a 1280 x 720 frame, with no key pressed
    ([cv2.waitKey] returns -1). *)
Definition frame (out : HandsOutput) : LoopInput :=
  {| cap_read := Some (720, 1280)%nat; hands_output := out;
     raised := None; mouse_events := []; wait_key := -1 |}.

Definition key (k : Z) (out : HandsOutput) : LoopInput :=
  {| cap_read := Some (720, 1280)%nat; hands_output := out;
     raised := None; mouse_events := []; wait_key := k |}.

(** A session with camera and tracker, and the state after given inputs. *)
Definition start : RunState := run_start true true.

(** The same session on a board whose two thresholds are both 2. *)
Definition degenerate : RunState :=
  with_board start (with_thresholds 2 2 (board start)).

Definition run_on `{Libm} (st : RunState) (inputs : list LoopInput)
  : RunState :=
  fold_left (fun st inp => (loop_body st inp).1) inputs st.

Definition after `{Libm} (inputs : list LoopInput) : RunState :=
  run_on start inputs.

(** No iteration of the run ends the loop. *)
Fixpoint never_breaks `{Libm} (st : RunState) (inputs : list LoopInput)
  : bool :=
  match inputs with
  | [] => true
  | inp :: rest =>
      match (loop_body st inp).2 with
      | Continue => never_breaks (loop_body st inp).1 rest
      | Break => false
      end
  end.

End Sample.

(** The closed examples further down are computed with the sample library.
    On the sample hands with a folded thumb the two thumb joints coincide,
    both differences are [0.0], and the interpreter squares them without
    consulting any library. *)
#[local] Existing Instance Sample.correctly_rounded.

(* ================================================================= *)
(** ** The rest of the class *)

(** The three attributes [update_fps] works on. *)
Record FpsCounter := { frame_count : Z; fps : Z; last_fps_time : float }.

(** [update_fps(self)], with the value [time.time()] returns. *)
Definition update_fps (self : FpsCounter) (current_time : float) : FpsCounter :=
  let frame_count := frame_count self + 1 in
  if (1 <=? current_time - last_fps_time self)%float then
    {| frame_count := 0; fps := frame_count; last_fps_time := current_time |}
  else
    {| frame_count := frame_count; fps := fps self;
       last_fps_time := last_fps_time self |}.

(** What one pass through the [try] block of [init_camera] meets. *)
Inductive CaptureAttempt : Type :=
| capture_raises                 (* an exception of the block *)
| capture_no_frame               (* ret is False *)
| capture_frame (actual_width actual_height : Z).

(** The attributes [init_camera] writes, and its return value. *)
Record CameraInit := {
  camera_ok : bool;              (* the value returned *)
  CAMERA_WIDTH : Z;
  CAMERA_HEIGHT : Z;
  fallback : bool                (* self.mouse_mode = True was executed *)
}.

(** [for attempt in range(max_attempts)] of [init_camera], on the attempts
    still to make: the first attempt that reads a frame returns. *)
Fixpoint init_camera_loop (attempt : nat -> CaptureAttempt)
    (range : list nat) (width height : Z) : CameraInit :=
  match range with
  | [] =>
      {| camera_ok := false; CAMERA_WIDTH := width; CAMERA_HEIGHT := height;
         fallback := true |}
  | i :: range' =>
      match attempt i with
      | capture_frame actual_width actual_height =>
          if actual_width <? width then
            {| camera_ok := true; CAMERA_WIDTH := actual_width;
               CAMERA_HEIGHT := actual_height; fallback := false |}
          else
            {| camera_ok := true; CAMERA_WIDTH := width;
               CAMERA_HEIGHT := height; fallback := false |}
      | capture_no_frame | capture_raises =>
          init_camera_loop attempt range' width height
      end
  end.

(** [init_camera(self)], as the constructor calls it: three attempts for
    a 1280 x 720 capture. *)
Definition init_camera (attempt : nat -> CaptureAttempt) : CameraInit :=
  init_camera_loop attempt (seq 0 3) 1280 720.

(** The name the 'c' branch of the key handler prints after
    "Color changed to:", for the board as it is when the key arrives. *)
Definition color_names : list string :=
  ["Red"; "Green"; "Blue"; "Yellow"; "Magenta"; "Cyan"; "White"; "Black"]%string.

Definition color_key_print (self : Board) : option string :=
  color_names !! index_or_0 (current_color self) colors.

(** "Draw crosshair at hand position", the last block of [draw_ui]: the
    calls made on the displayed frame. *)
Definition draw_ui_crosshair (self : Board) (hand_x hand_y : option Z)
  : list cv2_call :=
  if Py.truthy hand_x && Py.truthy hand_y && negb (mouse_mode self) then
    match hand_x, hand_y with
    | Some hand_x, Some hand_y =>
        let crosshair_size := 40 in
        [ cv2_line (hand_x - crosshair_size, hand_y)
            (hand_x + crosshair_size, hand_y) (0, 255, 255) 2;
          cv2_line (hand_x, hand_y - crosshair_size)
            (hand_x, hand_y + crosshair_size) (0, 255, 255) 2;
          cv2_circle (hand_x, hand_y) 25 (0, 255, 255) 2 ]
    | _, _ => []
    end
  else [].

(** An array whose rows agree with its recorded shape. *)
Definition well_shaped (a : ndarray) : Prop :=
  length (rows a) = (shape a).1
  /\ Forall (fun row => length row = (shape a).2) (rows a).

(** The board after the loop has run through a list of inputs. *)
Definition run_through `{Libm} (st : RunState) (inputs : list LoopInput)
  : RunState :=
  fold_left (fun st inp => (loop_body st inp).1) inputs st.

(** The key codes the handler tests. *)
Definition KEY_ESC : Z := 27.
Definition KEY_SPACE : Z := 32.
Definition KEY_C : Z := 99.
Definition KEY_S : Z := 115.
Definition KEY_R : Z := 114.

(** The low byte of the -1 that [cv2.waitKey] returns when no key is
    pressed: a key code no branch of the handler tests. *)
Definition NO_KEY : Z := 255.

(** One press of a key on a board, on a frame of shape [(h, w)]. *)
Definition press (key : Z) (h w : nat) (self : Board) : Board :=
  (handle_key self h w key).1.

(** The squared distance on which the guard of [draw_on_canvas] decides,
    through the hardware conversion of a 63-bit integer. *)
Definition guard_agrees_fast (d2 : Z) : bool :=
  Bool.eqb
    (PrimFloat.ltb (PrimFloat.sqrt (PrimFloat.of_uint63 (Uint63.of_Z d2)))
       MAX_JUMP)
    (d2 <? 10000).

(** A mouse event of each kind. *)
Definition button_down (x y : Z) : MouseEvent :=
  {| event := EVENT_LBUTTONDOWN; mouse_x := x; mouse_y := y; flags := 1 |}.
Definition button_up (x y : Z) : MouseEvent :=
  {| event := EVENT_LBUTTONUP; mouse_x := x; mouse_y := y; flags := 0 |}.
Definition drag (x y : Z) : MouseEvent :=
  {| event := EVENT_MOUSEMOVE; mouse_x := x; mouse_y := y; flags := 1 |}.
Definition hover (x y : Z) : MouseEvent :=
  {| event := EVENT_MOUSEMOVE; mouse_x := x; mouse_y := y; flags := 0 |}.

(* ================================================================= *)
(** * Properties *)

(** ** The renderer: [draw_on_canvas] *)

Lemma issued_app (self self' : Board) (new : list cv2_call) :
  calls (canvas self') = calls (canvas self) ++ new ->
  issued self self' = new.
Proof.
  intros E. unfold issued. rewrite E. apply drop_app_length.
Qed.

Lemma issued_same_canvas (self self' : Board) :
  canvas self' = canvas self -> issued self self' = [].
Proof.
  intros E. unfold issued. rewrite E. apply drop_all.
Qed.

Section DrawOnCanvas.

Variable self : Board.
Variables x y : Z.

Lemma draw_calls :
  calls (canvas (draw_on_canvas self x y "draw")) =
  calls (canvas self) ++ draw_disk self x y ::
    match last_draw_point self with
    | Some p => if within_jump x y p then [draw_line self x y p] else []
    | None => []
    end.
Proof.
  unfold draw_on_canvas, within_jump, draw_line, draw_disk. simpl.
  destruct (last_draw_point self) as [[x1 y1]|]; simpl; [|reflexivity].
  destruct (distance x1 y1 x y <? MAX_JUMP)%float; simpl; [|reflexivity].
  rewrite <- app_assoc. simpl. do 4 f_equal. lia.
Qed.

Lemma erase_calls :
  calls (canvas (draw_on_canvas self x y "erase")) =
  calls (canvas self) ++ erase_disk self x y ::
    match last_erase_point self with
    | Some p => if within_jump x y p then [erase_line self x y p] else []
    | None => []
    end.
Proof.
  unfold draw_on_canvas, within_jump, erase_line, erase_disk. simpl.
  destruct (last_erase_point self) as [[x1 y1]|]; simpl; [|reflexivity].
  destruct (distance x1 y1 x y <? MAX_JUMP)%float; simpl; [|reflexivity].
  rewrite <- app_assoc. reflexivity.
Qed.

Lemma draw_issued :
  issued self (draw_on_canvas self x y "draw") =
  draw_disk self x y ::
    match last_draw_point self with
    | Some p => if within_jump x y p then [draw_line self x y p] else []
    | None => []
    end.
Proof. apply issued_app, draw_calls. Qed.

Lemma erase_issued :
  issued self (draw_on_canvas self x y "erase") =
  erase_disk self x y ::
    match last_erase_point self with
    | Some p => if within_jump x y p then [erase_line self x y p] else []
    | None => []
    end.
Proof. apply issued_app, erase_calls. Qed.

Lemma draw_slots :
  last_draw_point (draw_on_canvas self x y "draw") = Some (x, y) /\
  last_erase_point (draw_on_canvas self x y "draw") = last_erase_point self.
Proof.
  unfold draw_on_canvas. simpl.
  destruct (last_draw_point self) as [[x1 y1]|]; simpl; [|done].
  destruct (distance x1 y1 x y <? MAX_JUMP)%float; done.
Qed.

Lemma erase_slots :
  last_erase_point (draw_on_canvas self x y "erase") = Some (x, y) /\
  last_draw_point (draw_on_canvas self x y "erase") = last_draw_point self.
Proof.
  unfold draw_on_canvas. simpl.
  destruct (last_erase_point self) as [[x1 y1]|]; simpl; [|done].
  destruct (distance x1 y1 x y <? MAX_JUMP)%float; done.
Qed.

(** What [draw_on_canvas] never touches, whatever the mode. *)
Lemma draw_on_canvas_frame (mode : string) :
  let self' := draw_on_canvas self x y mode in
  FINGERS_FOR_DRAW self' = FINGERS_FOR_DRAW self /\
  FINGERS_FOR_ERASE self' = FINGERS_FOR_ERASE self /\
  drawing_mode self' = drawing_mode self /\
  mouse_mode self' = mouse_mode self /\
  cap_opened self' = cap_opened self /\
  base (canvas self') = base (canvas self).
Proof.
  unfold draw_on_canvas.
  destruct (String.eqb mode "draw"); [|destruct (String.eqb mode "erase")].
  - destruct (last_draw_point _) as [[x1 y1]|]; simpl; [|done].
    destruct (distance x1 y1 x y <? MAX_JUMP)%float; done.
  - destruct (last_erase_point _) as [[x1 y1]|]; simpl; [|done].
    destruct (distance x1 y1 x y <? MAX_JUMP)%float; done.
  - done.
Qed.

End DrawOnCanvas.

Lemma far_jump : within_jump 200 200 (0, 0) = false.
Proof. reflexivity. Qed.

Lemma near_jump : within_jump 15 10 (10, 10) = true.
Proof. reflexivity. Qed.

Lemma all_from_spec (f : Z -> bool) (p : positive) :
  forall s, all_from p f s = true ->
            forall z, s <= z < s + Z.pos p -> f z = true.
Proof.
  induction p as [q IH|q IH|]; intros s H z Hz; cbn [all_from] in H.
  - apply andb_prop in H as [H H2]. apply andb_prop in H as [H0 H1].
    destruct (Z.eq_dec z s) as [->|Hne]; [exact H0|].
    destruct (Z_lt_ge_dec z (s + 1 + Z.pos q)).
    + apply (IH _ H1). lia.
    + apply (IH _ H2). lia.
  - apply andb_prop in H as [H1 H2].
    destruct (Z_lt_ge_dec z (s + Z.pos q)).
    + apply (IH _ H1). lia.
    + apply (IH _ H2). lia.
  - assert (z = s) as -> by lia. exact H.
Qed.

(** Up to 256 pixels, the jump guard is the comparison of the squared
    distance with 10000: the rounding of [math.sqrt] never moves a distance
    across 100. *)
Lemma within_jump_squares (x y x1 y1 : Z) :
  (x - x1) ^ 2 + (y - y1) ^ 2 < 65536 ->
  within_jump x y (x1, y1) = ((x - x1) ^ 2 + (y - y1) ^ 2 <? 10000).
Proof.
  intros Hlt. unfold within_jump, distance. simpl.
  set (d2 := (x - x1) ^ 2 + (y - y1) ^ 2) in *.
  assert (Hall : all_from 65536 guard_agrees 0 = true)
    by (vm_compute; reflexivity).
  assert (H : guard_agrees d2 = true)
    by (apply (all_from_spec _ _ _ Hall); subst d2; nia).
  unfold guard_agrees in H. apply Bool.eqb_prop in H. exact H.
Qed.

(** C1. In draw mode [draw_on_canvas] always issues the filled disk
    (thickness -1) of radius [brush_size] in [current_color] at the cursor,
    first.  When [last_draw_point] holds a point [p], the call that follows
    is the line from [p] to the cursor in [current_color] of width
    [2 * brush_size] exactly when the floating-point distance is strictly
    below 100, and nothing follows otherwise; with an empty slot only the
    disk is issued.  From (0,0) to (200,200) the disk alone is issued, from
    (10,10) to (15,10) the disk and the line.  Afterwards [last_draw_point]
    is the cursor. *)
Theorem draw_stamps_disk_and_joins_within_jump :
  forall (self : Board) (x y : Z),
    let self' := draw_on_canvas self x y "draw" in
    let new := issued self self' in
    head new = Some (draw_disk self x y)
    /\ (forall p, last_draw_point self = Some p ->
          (new = [draw_disk self x y; draw_line self x y p]
             <-> within_jump x y p = true)
          /\ (new = [draw_disk self x y] <-> within_jump x y p = false)
          /\ (In (draw_line self x y p) new <-> within_jump x y p = true))
    /\ (last_draw_point self = None -> new = [draw_disk self x y])
    /\ last_draw_point self' = Some (x, y)
    /\ (last_draw_point self = Some (0, 0) ->
          issued self (draw_on_canvas self 200 200 "draw")
          = [draw_disk self 200 200])
    /\ (last_draw_point self = Some (10, 10) ->
          issued self (draw_on_canvas self 15 10 "draw")
          = [draw_disk self 15 10; draw_line self 15 10 (10, 10)]).
Proof.
  intros self x y self' new. subst self' new.
  split_and!.
  - rewrite draw_issued. reflexivity.
  - intros p H. rewrite draw_issued, H.
    destruct (within_jump x y p); split_and!; split; try congruence.
    + intros _. right. left. reflexivity.
    + intros [E|[]]. discriminate E.
  - intros H. rewrite draw_issued, H. reflexivity.
  - apply draw_slots.
  - intros H. rewrite draw_issued, H, far_jump. reflexivity.
  - intros H. rewrite draw_issued, H, near_jump. reflexivity.
Qed.

(** ** Runs of the loop *)

Lemma reachable_step {libm : Libm} (st : RunState) (inp : LoopInput) :
  reachable st -> (loop_body st inp).2 = Continue ->
  reachable (loop_body st inp).1.
Proof.
  intros Hst Hc. apply (reachable_next st inp); [exact Hst|].
  destruct (loop_body st inp) as [st' ctl]. simpl in *. congruence.
Qed.

Lemma reachable_run_on {libm : Libm} (inputs : list LoopInput) :
  forall st, reachable st -> Sample.never_breaks st inputs = true ->
             reachable (Sample.run_on st inputs).
Proof.
  induction inputs as [|inp rest IH]; intros st Hst Hnb; [exact Hst|].
  cbn [Sample.never_breaks] in Hnb.
  destruct (loop_body st inp).2 eqn:Hc; [|discriminate].
  apply (IH (loop_body st inp).1); [|exact Hnb].
  apply reachable_step; assumption.
Qed.

Lemma reachable_after {libm : Libm} (inputs : list LoopInput) :
  Sample.never_breaks Sample.start inputs = true ->
  reachable (Sample.after inputs).
Proof. apply reachable_run_on, reachable_start. Qed.

(** The erase branch in general: the disk of radius [eraser_size] in dark
    gray, then, for a slot within the jump guard, the line the source
    draws, whose width is [eraser_size]. *)
Lemma erase_stamps_disk_and_joins_within_jump (self : Board) (x y : Z) :
  let self' := draw_on_canvas self x y "erase" in
  (forall p, last_erase_point self = Some p ->
     issued self self' =
     erase_disk self x y :: (if within_jump x y p then [erase_line self x y p] else []))
  /\ (last_erase_point self = None -> issued self self' = [erase_disk self x y])
  /\ last_erase_point self' = Some (x, y).
Proof.
  split_and!.
  - intros p H. rewrite erase_issued, H. reflexivity.
  - intros H. rewrite erase_issued, H. reflexivity.
  - apply erase_slots.
Qed.

(** C6. Two consecutive frames of a 1280 x 720 camera show four raised
    fingers, the index fingertip at pixel (10, 11) and then at (15, 11).
    With the eraser of radius 40, the second frame issues the dark gray
    disk of radius 40 at (15, 11) and the dark gray line from (10, 11) to
    (15, 11); the width of that line is 40, the eraser radius, where the
    draw branch passes twice the brush radius. *)
Theorem erase_line_is_one_radius_wide {libm : Libm} :
  let st := Sample.after [Sample.frame (Sample.four_fingers Sample.tip_10_11)] in
  let st' := (loop_body st (Sample.frame (Sample.four_fingers Sample.tip_15_11))).1 in
  reachable st
  /\ last_erase_point (board st) = Some (10, 11)
  /\ eraser_size (board st) = 40
  /\ issued (board st) (board st') =
       [ cv2_circle (15, 11) 40 dark_gray (-1);
         cv2_line (10, 11) (15, 11) dark_gray 40 ]
  /\ issued (board st) (board st') <>
       [ cv2_circle (15, 11) 40 dark_gray (-1);
         cv2_line (10, 11) (15, 11) dark_gray (2 * 40) ]
  /\ last_erase_point (board st') = Some (15, 11).
Proof.
  split_and!.
  - apply reachable_after. reflexivity.
  - vm_compute. reflexivity.
  - vm_compute. reflexivity.
  - vm_compute. reflexivity.
  - vm_compute. congruence.
  - vm_compute. reflexivity.
Qed.

(** ** The canvas: [init_canvas] *)

Lemma pixel_init_canvas (self : Board) (width height r c : nat) :
  pixel (base (canvas (init_canvas self width height))) r c =
  if decide (r < height /\ c < width)%nat then Some dark_gray else None.
Proof.
  unfold pixel. simpl.
  rewrite list_lookup_fmap.
  destruct (decide (r < height)%nat) as [Hr|Hr].
  - rewrite lookup_replicate_2 by exact Hr. simpl.
    rewrite list_lookup_fmap.
    destruct (decide (c < width)%nat) as [Hc|Hc].
    + rewrite lookup_replicate_2 by exact Hc. simpl.
      rewrite decide_True by done. reflexivity.
    + replace (replicate width (0, 0, 0) !! c) with (@None (Z * Z * Z))
        by (symmetry; apply lookup_replicate_None; lia).
      simpl. rewrite decide_False by (intros [_ ?]; done). reflexivity.
  - replace (replicate height (replicate width (0, 0, 0)) !! r)
      with (@None (list (Z * Z * Z)))
      by (symmetry; apply lookup_replicate_None; lia).
    simpl. rewrite decide_False by (intros [? _]; done). reflexivity.
Qed.

Lemma resize_canvas_canvas (self : Board) (h w : nat) :
  canvas (resize_canvas self h w) =
  if decide (shape (base (canvas self)) ≠ (h, w))
  then canvas (init_canvas self w h)
  else canvas self.
Proof.
  unfold resize_canvas. simpl.
  destruct (decide (shape (base (canvas self)) ≠ (h, w))); reflexivity.
Qed.

Lemma gesture_change_canvas (st : RunState) (finger_count : Z) :
  canvas (board (gesture_change st finger_count)) = canvas (board st).
Proof.
  unfold gesture_change.
  destruct (negb (finger_count =? last_finger_count st)); reflexivity.
Qed.

Lemma before_gestures_canvas {libm : Libm} (st : RunState) (h w : nat) (out : HandsOutput) :
  canvas (board (before_gestures st h w out).1) =
  canvas (resize_canvas (board st) h w).
Proof.
  unfold before_gestures.
  destruct (read_gesture _ _ _ _ _) as [[hand_x hand_y] finger_count].
  simpl. apply gesture_change_canvas.
Qed.

(** ** The classifier: [detect_fingers_mediapipe] *)







(** What a successful pass through the block has computed. *)
Lemma detect_hand_Some {libm : Libm} (h w : nat) (landmark : list Landmark.t)
    (hand_x hand_y finger_count : Z) (extended : list nat) :
  detect_hand h w landmark = Some (hand_x, hand_y, finger_count, extended) ->
  exists index_tip,
    landmark !! 8%nat = Some index_tip
    /\ Py.int_of_float
         (Landmark.x index_tip * Py.float_of_int (Z.of_nat w))%float
       = Some hand_x
    /\ Py.int_of_float
         (Landmark.y index_tip * Py.float_of_int (Z.of_nat h))%float
       = Some hand_y
    /\ count_loop landmark (seq 0 5) 0 [] = Some (finger_count, extended).
Proof.
  unfold detect_hand. intros E.
  remember (count_loop landmark (seq 0 5) 0 []) as counted eqn:Hc.
  destruct (landmark !! 8%nat) as [tip|] eqn:H8; simpl in E; [|discriminate].
  destruct (Py.int_of_float (Landmark.x tip * _)) as [ix|] eqn:Hx;
    simpl in E; [|discriminate].
  destruct (Py.int_of_float (Landmark.y tip * _)) as [iy|] eqn:Hy;
    simpl in E; [|discriminate].
  destruct counted as [[c e]|]; simpl in E; [|discriminate].
  injection E as <- <- <- <-. exists tip. done.
Qed.



Lemma count_loop_bounds {libm : Libm} (landmark : list Landmark.t) (range : list nat) :
  forall c0 e0 c1 e1,
    count_loop landmark range c0 e0 = Some (c1, e1) ->
    c0 <= c1 <= c0 + Z.of_nat (length range).
Proof.
  induction range as [|i range IH]; intros c0 e0 c1 e1 H.
  - simpl in H. injection H as <- <-. simpl. lia.
  - cbn [count_loop] in H.
    destruct (is_extended landmark i) as [[|]|]; simpl in H;
      [apply IH in H|apply IH in H|discriminate]; cbn [length]; lia.
Qed.

(** Whatever the tracker returns, the count handed back is one the loop
    produced on five fingers, or the 0 of the final [return]. *)
Lemma detect_count_range {libm : Libm} (h w : nat) (out : HandsOutput) :
  0 <= (detect_fingers_mediapipe h w out).1.2 <= 5.
Proof.
  unfold detect_fingers_mediapipe.
  destruct out as [|[[|landmark others]|]]; simpl; try lia.
  destruct (detect_hand h w landmark) as [[[[hx hy] fc] ext]|] eqn:E;
    simpl; [|lia].
  apply detect_hand_Some in E as (tip & _ & _ & _ & Hc).
  apply count_loop_bounds in Hc. simpl in Hc. lia.
Qed.



(** ** One frame of the loop *)

Lemma with_board_same (st : RunState) : with_board st (board st) = st.
Proof. destruct st; reflexivity. Qed.

Lemma pair_eta {A B : Type} (p : A * B) (b : B) : p.2 = b -> p = (p.1, b).
Proof. destruct p; simpl; congruence. Qed.

Lemma truthy_Some (n : Z) : Py.truthy (Some n) = true <-> n <> 0.
Proof. unfold Py.truthy. destruct (Z.eqb_spec n 0); simpl; split; congruence. Qed.

Lemma truthy_zero : Py.truthy (Some 0) = false.
Proof. reflexivity. Qed.

(** "Handle gestures" when both coordinates are non-zero integers and the
    board is not in mouse mode: the three-way branch. *)
Lemma handle_gestures_present (self : Board) (x y finger_count : Z) :
  x <> 0 -> y <> 0 -> mouse_mode self = false ->
  handle_gestures self (Some x) (Some y) finger_count =
  let self1 := set_hand_pos (x, y) self in
  if finger_count =? FINGERS_FOR_DRAW self then
    if drawing_mode self then draw_on_canvas self1 x y "draw" else self1
  else if finger_count >=? FINGERS_FOR_ERASE self then
    draw_on_canvas self1 x y "erase"
  else reset_last_points self1.
Proof.
  intros Hx Hy Hm. unfold handle_gestures.
  rewrite (proj2 (truthy_Some x) Hx), (proj2 (truthy_Some y) Hy), Hm.
  reflexivity.
Qed.

(** "Handle gestures" when the test of its [if] fails: nothing runs. *)
Lemma handle_gestures_skipped (self : Board) (hand_x hand_y : option Z)
    (finger_count : Z) :
  Py.truthy hand_x && Py.truthy hand_y && negb (mouse_mode self) = false ->
  handle_gestures self hand_x hand_y finger_count = self.
Proof. intros H. unfold handle_gestures. rewrite H. reflexivity. Qed.

Lemma resize_canvas_frame (self : Board) (h w : nat) :
  let self' := resize_canvas self h w in
  FINGERS_FOR_DRAW self' = FINGERS_FOR_DRAW self /\
  FINGERS_FOR_ERASE self' = FINGERS_FOR_ERASE self /\
  drawing_mode self' = drawing_mode self /\
  mouse_mode self' = mouse_mode self /\
  cap_opened self' = cap_opened self /\
  last_draw_point self' = last_draw_point self /\
  last_erase_point self' = last_erase_point self.
Proof.
  unfold resize_canvas. simpl. destruct (decide _); done.
Qed.

Lemma gesture_change_frame (st : RunState) (finger_count : Z) :
  let st' := gesture_change st finger_count in
  FINGERS_FOR_DRAW (board st') = FINGERS_FOR_DRAW (board st) /\
  FINGERS_FOR_ERASE (board st') = FINGERS_FOR_ERASE (board st) /\
  drawing_mode (board st') = drawing_mode (board st) /\
  mouse_mode (board st') = mouse_mode (board st) /\
  cap_opened (board st') = cap_opened (board st) /\
  hands st' = hands st /\
  mouse_callback st' = mouse_callback st /\
  last_finger_count st' = finger_count.
Proof.
  unfold gesture_change.
  destruct (Z.eqb_spec finger_count (last_finger_count st)); simpl; done.
Qed.

(** Lines 484-486: a count that differs from the stored one clears both
    slots, an equal count leaves the state alone. *)
Lemma gesture_change_slots (st : RunState) (finger_count : Z) :
  let st' := gesture_change st finger_count in
  (finger_count <> last_finger_count st ->
     last_draw_point (board st') = None /\ last_erase_point (board st') = None)
  /\ (finger_count = last_finger_count st -> st' = st).
Proof.
  unfold gesture_change.
  destruct (Z.eqb_spec finger_count (last_finger_count st)); simpl; done.
Qed.

(** A cursor comes only from the classifier, which runs only outside
    mouse mode; its two coordinates come together. *)
Lemma read_gesture_cursor {libm : Libm} (self : Board) (hands : bool) (h w : nat)
    (out : HandsOutput) (hand_x hand_y : option Z) (finger_count : Z) :
  read_gesture self hands h w out = (hand_x, hand_y, finger_count) ->
  (hand_x <> None \/ hand_y <> None -> mouse_mode self = false)
  /\ (hand_x = None <-> hand_y = None)
  /\ 0 <= finger_count <= 5.
Proof.
  unfold read_gesture. intros H.
  assert (Hidle : (None, None, 0) = (hand_x, hand_y, finger_count) ->
            (hand_x <> None \/ hand_y <> None -> mouse_mode self = false)
            /\ (hand_x = None <-> hand_y = None)
            /\ 0 <= finger_count <= 5).
  { intros E. injection E as <- <- <-. split; [tauto|split; [tauto|lia]]. }
  destruct (mouse_mode self) eqn:Hm, hands; simpl in H; try (apply Hidle, H).
  pose proof (detect_count_range h w out) as Hr.
  unfold detect_fingers_mediapipe in *.
  destruct out as [|[[|landmark others]|]]; simpl in H;
    try (apply Hidle, H).
  destruct (detect_hand h w landmark) as [[[[hx hy] fc] ext]|];
    simpl in H, Hr; [|apply Hidle, H].
  injection H as <- <- <-. split; [done|split; [split; congruence|lia]].
Qed.

(** The pieces of [before_gestures]. *)
Lemma before_gestures_eq {libm : Libm} (st st' : RunState) (h w : nat) (out : HandsOutput)
    (g : option Z * option Z * Z) :
  before_gestures st h w out = (st', g) ->
  let self := resize_canvas (board st) h w in
  g = read_gesture self (hands st) h w out
  /\ st' = gesture_change (with_board st self) (count_of g).
Proof.
  unfold before_gestures, count_of.
  destruct (read_gesture _ _ _ _ _) as [[hand_x hand_y] finger_count].
  intros H. injection H as <- <-. done.
Qed.

Lemma tick_eq {libm : Libm} (st st' : RunState) (h w : nat) (out : HandsOutput)
    (hand_x hand_y : option Z) (finger_count : Z) :
  before_gestures st h w out = (st', (hand_x, hand_y, finger_count)) ->
  tick st h w out =
  with_board st' (handle_gestures (board st') hand_x hand_y finger_count).
Proof. unfold tick. intros ->. reflexivity. Qed.

(** What the start of a frame keeps, and what it establishes. *)
Lemma before_gestures_frame {libm : Libm} (st st' : RunState) (h w : nat)
    (out : HandsOutput) (hand_x hand_y : option Z) (finger_count : Z) :
  before_gestures st h w out = (st', (hand_x, hand_y, finger_count)) ->
  FINGERS_FOR_DRAW (board st') = FINGERS_FOR_DRAW (board st) /\
  FINGERS_FOR_ERASE (board st') = FINGERS_FOR_ERASE (board st) /\
  drawing_mode (board st') = drawing_mode (board st) /\
  mouse_mode (board st') = mouse_mode (board st) /\
  hands st' = hands st /\
  mouse_callback st' = mouse_callback st /\
  last_finger_count st' = finger_count /\
  (hand_x <> None \/ hand_y <> None -> mouse_mode (board st') = false) /\
  0 <= finger_count <= 5.
Proof.
  intros H. apply before_gestures_eq in H as [Hg ->]. simpl in *.
  symmetry in Hg. apply read_gesture_cursor in Hg as (Hm & _ & Hr).
  pose proof (resize_canvas_frame (board st) h w) as (? & ? & ? & Hmm & _).
  pose proof (gesture_change_frame
                (with_board st (resize_canvas (board st) h w)) finger_count)
    as (? & ? & ? & ? & ? & ? & ? & ?).
  simpl in *. unfold count_of. simpl.
  split_and!; try congruence; try lia.
  intros Hc. specialize (Hm Hc). congruence.
Qed.

Lemma issued_hand_pos (self self' : Board) (p : Point) :
  issued self self' = issued (set_hand_pos p self) self'.
Proof. reflexivity. Qed.

(** ** The gesture logic *)




(** C10. When the classifier returns a cursor one of whose coordinates is
    0, the test of line 489 fails as it does for [None]: "Handle gestures"
    does what it does without a cursor, that is nothing, so no drawing
    call is issued and both slots stay as they were when it started. *)
Theorem zero_coordinate_is_treated_as_absent {libm : Libm} :
  forall (st st' : RunState) (h w : nat) (out : HandsOutput)
         (hand_x hand_y : option Z) (finger_count : Z),
    before_gestures st h w out = (st', (hand_x, hand_y, finger_count)) ->
    hand_x = Some 0 \/ hand_y = Some 0 ->
    handle_gestures (board st') hand_x hand_y finger_count
    = handle_gestures (board st') None None finger_count
    /\ tick st h w out = st'
    /\ issued (board st') (board (tick st h w out)) = []
    /\ last_draw_point (board (tick st h w out)) = last_draw_point (board st')
    /\ last_erase_point (board (tick st h w out))
       = last_erase_point (board st').
Proof.
  intros st st' h w out hand_x hand_y finger_count Hb Hzero.
  assert (Hskip : handle_gestures (board st') hand_x hand_y finger_count
                  = board st').
  { apply handle_gestures_skipped.
    destruct Hzero as [-> | ->]; simpl;
      [|rewrite andb_false_r]; reflexivity. }
  assert (Ht : tick st h w out = st')
    by (rewrite (tick_eq _ _ _ _ _ _ _ _ Hb), Hskip; apply with_board_same).
  rewrite Ht, Hskip. split_and!; try reflexivity.
  apply issued_same_canvas. reflexivity.
Qed.

(** C10 on a frame that shows three raised fingers with the index
    fingertip in pixel column 0 (at x = 1/4096 of a 1280-pixel row): the
    classifier returns the cursor (0, 11), and the frame leaves the state
    as it was when "Handle gestures" started. *)
Lemma zero_coordinate_is_treated_as_absent_witness :
  let out := Sample.three_fingers Sample.tip_0_11 in
  detect_fingers_mediapipe 720 1280 out = (Some 0, Some 11, 3, [1; 2; 3]%nat)
  /\ tick Sample.start 720 1280 out
     = (before_gestures Sample.start 720 1280 out).1.
Proof.
  intros out. split; [vm_compute; reflexivity|].
  refine (proj1 (proj2
    (zero_coordinate_is_treated_as_absent Sample.start _ 720 1280 out
       (Some 0) (Some 11) 3 (pair_eta _ _ _) (or_introl eq_refl)))).
  vm_compute. reflexivity.
Defined.

(** C5, as stated, fails.  On a board whose two thresholds are both 2, in
    write mode, a frame with two raised fingers and the cursor at (10, 11)
    draws: the only call issued is the green brush disk of radius 8, the
    draw slot takes the cursor and the erase slot stays empty. *)
Lemma degenerate_thresholds_two_fingers_draw :
  let st := Sample.degenerate in
  let out := Sample.two_fingers Sample.tip_10_11 in
  let st' := (before_gestures st 720 1280 out).1 in
  let self' := board (tick st 720 1280 out) in
  FINGERS_FOR_DRAW (board st) = 2
  /\ FINGERS_FOR_ERASE (board st) = 2
  /\ drawing_mode (board st) = true
  /\ (before_gestures st 720 1280 out).2 = (Some 10, Some 11, 2)
  /\ issued (board st') self' = [cv2_circle (10, 11) 8 (0, 255, 0) (-1)]
  /\ last_draw_point self' = Some (10, 11)
  /\ last_erase_point self' = None
  /\ self' <> draw_on_canvas (set_hand_pos (10, 11) (board st')) 10 11 "erase".
Proof.
  intros st out st' self'. split_and!.
  1-7: vm_compute; reflexivity.
  intros E. apply (f_equal last_erase_point) in E.
  vm_compute in E. discriminate E.
Qed.

(** C5, amended. With both thresholds at 2, in write mode, a frame with a
    count of 2 and a cursor whose two pixel coordinates are non-zero draws
    and does not erase: the rules give Drawing, since the test against
    [FINGERS_FOR_DRAW] comes first; the frame runs [draw_on_canvas] in draw
    mode, the calls it issues are the brush disk and, within the jump
    guard, the brush line; the draw slot takes the cursor and the erase
    slot is left alone. *)
Theorem degenerate_thresholds_draw_rule_first {libm : Libm} :
  forall (st st' : RunState) (h w : nat) (out : HandsOutput)
         (hand_x hand_y : Z),
    FINGERS_FOR_DRAW (board st) = 2 ->
    FINGERS_FOR_ERASE (board st) = 2 ->
    before_gestures st h w out = (st', (Some hand_x, Some hand_y, 2)) ->
    hand_x <> 0 -> hand_y <> 0 ->
    drawing_mode (board st') = true ->
    let self := set_hand_pos (hand_x, hand_y) (board st') in
    let self' := board (tick st h w out) in
    action_mode (board st') 2 = Drawing
    /\ self' = draw_on_canvas self hand_x hand_y "draw"
    /\ issued (board st') self' =
       draw_disk (board st') hand_x hand_y ::
         match last_draw_point (board st') with
         | Some p =>
             if within_jump hand_x hand_y p
             then [draw_line (board st') hand_x hand_y p] else []
         | None => []
         end
    /\ last_draw_point self' = Some (hand_x, hand_y)
    /\ last_erase_point self' = last_erase_point (board st').
Proof.
  intros st st' h w out hand_x hand_y HD HE Hb Hx Hy Hdm self self'.
  pose proof (before_gestures_frame _ _ _ _ _ _ _ _ Hb)
    as (HD' & HE' & _ & _ & _ & _ & _ & Hm & _).
  assert (Hmm : mouse_mode (board st') = false)
    by (apply Hm; left; discriminate).
  assert (Hs : self' =
               handle_gestures (board st') (Some hand_x) (Some hand_y) 2)
    by (subst self'; rewrite (tick_eq _ _ _ _ _ _ _ _ Hb); reflexivity).
  rewrite (handle_gestures_present _ _ _ _ Hx Hy Hmm) in Hs.
  rewrite HD', HD, Hdm in Hs. cbv zeta in Hs. fold self in Hs. simpl in Hs.
  clearbody self'. subst self'.
  split_and!.
  - unfold action_mode. rewrite HD', HD, Hdm. reflexivity.
  - reflexivity.
  - rewrite (issued_hand_pos _ _ (hand_x, hand_y)). fold self.
    rewrite draw_issued. reflexivity.
  - apply (proj1 (draw_slots self hand_x hand_y)).
  - apply (proj2 (draw_slots self hand_x hand_y)).
Qed.

(** C5 amended, on the degenerate board in write mode: two raised fingers
    at (10, 11) issue the brush disk. *)
Lemma degenerate_thresholds_draw_rule_first_witness :
  let out := Sample.two_fingers Sample.tip_10_11 in
  let st' := (before_gestures Sample.degenerate 720 1280 out).1 in
  action_mode (board st') 2 = Drawing
  /\ issued (board st') (board (tick Sample.degenerate 720 1280 out))
     = [draw_disk (board st') 10 11].
Proof.
  intros out st'.
  assert (Hg : (before_gestures Sample.degenerate 720 1280 out).2
               = (Some 10, Some 11, 2)) by (vm_compute; reflexivity).
  assert (Hdm : drawing_mode (board st') = true) by (vm_compute; reflexivity).
  assert (Hslot : last_draw_point (board st') = None)
    by (vm_compute; reflexivity).
  pose proof (degenerate_thresholds_draw_rule_first Sample.degenerate st'
                720 1280 out 10 11 eq_refl eq_refl (pair_eta _ _ Hg)
                ltac:(lia) ltac:(lia) Hdm)
    as (Hmode & _ & Hissued & _).
  split; [exact Hmode|].
  exact (eq_trans Hissued
           (f_equal (fun slot =>
                       draw_disk (board st') 10 11 ::
                         match slot with
                         | Some p =>
                             if within_jump 10 11 p
                             then [draw_line (board st') 10 11 p] else []
                         | None => []
                         end) Hslot)).
Defined.

(** ** The whole iteration *)

Lemma acquire_Some (self self' : Board) (read : option (nat * nat))
    (hw : nat * nat) :
  acquire self read = (self', Some hw) -> self' = self.
Proof.
  unfold acquire.
  destruct (negb (mouse_mode self) && cap_opened self); [destruct read|];
    intros H; congruence.
Qed.

(** An iteration that has a frame: the frame's shape, the state after
    "Handle gestures", and the three ways the rest of the body ends. *)
Lemma loop_body_frame {libm : Libm} (st stA : RunState) (inp : LoopInput)
    (hand_x hand_y : option Z) (finger_count : Z) :
  enter_frame st inp = Some (stA, (hand_x, hand_y, finger_count)) ->
  exists h w,
    before_gestures st h w (hands_output inp)
      = (stA, (hand_x, hand_y, finger_count))
    /\ loop_body st inp =
       let st2 :=
         with_board stA
           (handle_gestures (board stA) hand_x hand_y finger_count) in
       match display w (raised inp) with
       | Some KeyboardInterrupt => (st2, Break)
       | Some Exception => (st2, Continue)
       | None =>
           let self :=
             if mouse_callback st2
             then fold_left handle_mouse (mouse_events inp) (board st2)
             else board st2 in
           ((with_board st2
               (handle_key self h w (Z.land (wait_key inp) 255)).1),
            (handle_key self h w (Z.land (wait_key inp) 255)).2)
       end.
Proof.
  unfold enter_frame, loop_body.
  destruct (acquire (board st) (cap_read inp)) as [self [[h w]|]] eqn:Ha;
    [|discriminate].
  apply acquire_Some in Ha as ->. rewrite with_board_same.
  intros H. injection H as H. exists h, w. split; [exact H|].
  rewrite (tick_eq _ _ _ _ _ _ _ _ H).
  cbv zeta. destruct (display w (raised inp)) as [[|]|]; try reflexivity.
  destruct (handle_key _ h w _) as [self' ctl]. reflexivity.
Qed.

Lemma handle_key_no_key (self : Board) (h w : nat) :
  handle_key self h w NO_KEY = (self, Continue).
Proof. reflexivity. Qed.

(** With no mouse callback, the state in which an iteration with a frame
    ends is the one a key press leaves after "Handle gestures": the key
    that was read, or no key at all when the display was cut short. *)
Lemma loop_body_frame_state {libm : Libm} (st stA : RunState) (inp : LoopInput)
    (hand_x hand_y : option Z) (finger_count : Z) :
  mouse_callback st = false ->
  enter_frame st inp = Some (stA, (hand_x, hand_y, finger_count)) ->
  exists h w key,
    before_gestures st h w (hands_output inp)
      = (stA, (hand_x, hand_y, finger_count))
    /\ (key = Z.land (wait_key inp) 255 \/ key = NO_KEY)
    /\ (loop_body st inp).1 =
       with_board stA
         (handle_key (handle_gestures (board stA) hand_x hand_y finger_count)
            h w key).1.
Proof.
  intros Hcb Hf.
  destruct (loop_body_frame _ _ _ _ _ _ Hf) as (h & w & Hb & ->).
  pose proof (before_gestures_frame _ _ _ _ _ _ _ _ Hb)
    as (_ & _ & _ & _ & _ & HcbA & _).
  exists h, w. cbv zeta.
  destruct (display w (raised inp)) as [[|]|].
  - exists NO_KEY. split_and!; [exact Hb|right; reflexivity|reflexivity].
  - exists NO_KEY. split_and!; [exact Hb|right; reflexivity|reflexivity].
  - exists (Z.land (wait_key inp) 255).
    split_and!; [exact Hb|left; reflexivity|].
    simpl. rewrite HcbA, Hcb. reflexivity.
Qed.

(** The branch "Handle gestures" takes, case by case. *)
Lemma handle_gestures_cases (self : Board) (hand_x hand_y : option Z)
    (finger_count : Z) :
  let self' := handle_gestures self hand_x hand_y finger_count in
  self' = self
  \/ exists x y,
       hand_x = Some x /\ hand_y = Some y /\ x <> 0 /\ y <> 0
       /\ mouse_mode self = false
       /\ let self1 := set_hand_pos (x, y) self in
          (finger_count = FINGERS_FOR_DRAW self /\ drawing_mode self = true
             /\ self' = draw_on_canvas self1 x y "draw")
          \/ (finger_count = FINGERS_FOR_DRAW self /\ drawing_mode self = false
              /\ self' = self1)
          \/ (finger_count <> FINGERS_FOR_DRAW self
              /\ finger_count >= FINGERS_FOR_ERASE self
              /\ self' = draw_on_canvas self1 x y "erase")
          \/ (finger_count <> FINGERS_FOR_DRAW self
              /\ finger_count < FINGERS_FOR_ERASE self
              /\ self' = reset_last_points self1).
Proof.
  cbv zeta.
  destruct (Py.truthy hand_x && Py.truthy hand_y && negb (mouse_mode self))
    eqn:Hc.
  - right.
    apply andb_prop in Hc as [Hc Hm]. apply andb_prop in Hc as [Hx Hy].
    destruct hand_x as [x|]; [|discriminate].
    destruct hand_y as [y|]; [|discriminate].
    apply truthy_Some in Hx. apply truthy_Some in Hy.
    apply negb_true_iff in Hm.
    exists x, y. split_and!; try done.
    rewrite (handle_gestures_present _ _ _ _ Hx Hy Hm). cbv zeta.
    destruct (Z.eqb_spec finger_count (FINGERS_FOR_DRAW self)) as [E|E].
    + destruct (drawing_mode self); [left|right; left]; done.
    + destruct (Z.geb_spec finger_count (FINGERS_FOR_ERASE self));
        right; right; [left|right]; split_and!; (done || lia).
  - left. apply handle_gestures_skipped, Hc.
Qed.

(** "Handle gestures" changes neither thresholds nor modes. *)
Lemma handle_gestures_frame (self : Board) (hand_x hand_y : option Z)
    (finger_count : Z) :
  let self' := handle_gestures self hand_x hand_y finger_count in
  FINGERS_FOR_DRAW self' = FINGERS_FOR_DRAW self /\
  FINGERS_FOR_ERASE self' = FINGERS_FOR_ERASE self /\
  drawing_mode self' = drawing_mode self /\
  mouse_mode self' = mouse_mode self.
Proof.
  cbv zeta.
  destruct (handle_gestures_cases self hand_x hand_y finger_count)
    as [->|(x & y & _ & _ & _ & _ & _ & H)]; [done|].
  cbv zeta in H.
  destruct H as [(_ & _ & ->)|[(_ & _ & ->)|[(_ & _ & ->)|(_ & _ & ->)]]];
    try done.
  - pose proof (draw_on_canvas_frame (set_hand_pos (x, y) self) x y "draw")
      as (? & ? & ? & ? & _). done.
  - pose proof (draw_on_canvas_frame (set_hand_pos (x, y) self) x y "erase")
      as (? & ? & ? & ? & _). done.
Qed.

(** A key press changes neither thresholds nor the mouse mode; it either
    clears both slots or keeps slots and base mode. *)
Lemma handle_key_frame (self : Board) (h w : nat) (key : Z) :
  let self' := (handle_key self h w key).1 in
  FINGERS_FOR_DRAW self' = FINGERS_FOR_DRAW self /\
  FINGERS_FOR_ERASE self' = FINGERS_FOR_ERASE self /\
  mouse_mode self' = mouse_mode self /\
  ((last_draw_point self' = None /\ last_erase_point self' = None)
   \/ (last_draw_point self' = last_draw_point self
       /\ last_erase_point self' = last_erase_point self
       /\ drawing_mode self' = drawing_mode self)).
Proof.
  unfold handle_key. cbv zeta.
  repeat case_match; simpl;
    (split_and!; [done|done|done|first [left; done | right; done]]).
Qed.

(** ** The invariant of the loop *)

Lemma slots_follow_before {libm : Libm} (st stA : RunState) (h w : nat) (out : HandsOutput)
    (g : option Z * option Z * Z) :
  before_gestures st h w out = (stA, g) ->
  slots_follow_mode st -> slots_follow_mode stA.
Proof.
  intros Hb [Hd He]. apply before_gestures_eq in Hb as [_ ->].
  set (st0 := with_board st (resize_canvas (board st) h w)).
  pose proof (resize_canvas_frame (board st) h w)
    as (HD & HE & Hdm & _ & _ & Hld & Hle).
  destruct (gesture_change_slots st0 (count_of g)) as [Hne Heq].
  destruct (Z.eq_dec (count_of g) (last_finger_count st0)) as [E|E].
  - rewrite (Heq E). unfold slots_follow_mode, st0. simpl.
    rewrite HD, HE, Hdm, Hld, Hle. split; assumption.
  - destruct (Hne E) as [H1 H2]. unfold slots_follow_mode.
    rewrite H1, H2. split; intros H; destruct (H eq_refl).
Qed.

Lemma slots_follow_handle (stA : RunState) (hand_x hand_y : option Z) :
  slots_follow_mode stA ->
  slots_follow_mode
    (with_board stA
       (handle_gestures (board stA) hand_x hand_y (last_finger_count stA))).
Proof.
  intros [Hd He]. unfold slots_follow_mode. simpl.
  destruct (handle_gestures_cases (board stA) hand_x hand_y
              (last_finger_count stA))
    as [->|(x & y & _ & _ & _ & _ & _ & H)]; [split; assumption|].
  cbv zeta in H.
  destruct H as [(Hc & Hdm & ->)|[(Hc & Hdm & ->)|[(Hc & Hge & ->)|(_ & _ & ->)]]].
  - pose proof (draw_on_canvas_frame (set_hand_pos (x, y) (board stA)) x y "draw")
      as (-> & -> & -> & _).
    destruct (draw_slots (set_hand_pos (x, y) (board stA)) x y) as [-> ->].
    simpl. split; [done|]. intros H. destruct (He H) as [Hne _]. done.
  - simpl. split; [|exact He]. intros H. destruct (Hd H) as [_ Hdm'].
    congruence.
  - pose proof (draw_on_canvas_frame (set_hand_pos (x, y) (board stA)) x y "erase")
      as (-> & -> & -> & _).
    destruct (erase_slots (set_hand_pos (x, y) (board stA)) x y) as [-> ->].
    simpl. split; [|done]. intros H. destruct (Hd H) as [Heq _]. done.
  - simpl. split; intros H; destruct (H eq_refl).
Qed.

Lemma slots_follow_key (st : RunState) (h w : nat) (key : Z) :
  slots_follow_mode st ->
  slots_follow_mode (with_board st (handle_key (board st) h w key).1).
Proof.
  intros [Hd He]. unfold slots_follow_mode. simpl.
  pose proof (handle_key_frame (board st) h w key) as (-> & -> & _ & H).
  destruct H as [[-> ->]|(-> & -> & ->)].
  - split; intros H; destruct (H eq_refl).
  - split; assumption.
Qed.

Lemma run_invariant_start (camera_ok hands_ok : bool) :
  run_invariant (run_start camera_ok hands_ok).
Proof.
  unfold run_invariant, slots_follow_mode. simpl.
  split_and!; try reflexivity; intros H; destruct (H eq_refl).
Qed.

Lemma run_invariant_loop_body {libm : Libm} (st st' : RunState) (inp : LoopInput)
    (ctl : Control) :
  run_invariant st -> loop_body st inp = (st', ctl) -> run_invariant st'.
Proof.
  intros (Hcb & HD & HE & Hs) Hl.
  destruct (enter_frame st inp) as [[stA [[hand_x hand_y] finger_count]]|]
    eqn:Hf.
  - destruct (loop_body_frame_state _ _ _ _ _ _ Hcb Hf)
      as (h & w & key & Hb & _ & Hl').
    rewrite Hl in Hl'. simpl in Hl'. subst st'.
    pose proof (before_gestures_frame _ _ _ _ _ _ _ _ Hb)
      as (HD' & HE' & _ & _ & _ & Hcb' & Hfc & _ & _).
    pose proof (slots_follow_before _ _ _ _ _ _ Hb Hs) as HsA.
    pose proof (slots_follow_handle stA hand_x hand_y HsA) as Hs2.
    rewrite Hfc in Hs2.
    set (st2 := with_board stA
                  (handle_gestures (board stA) hand_x hand_y finger_count))
      in *.
    pose proof (slots_follow_key st2 h w key Hs2) as Hs3.
    pose proof (handle_key_frame (board st2) h w key) as (HDk & HEk & _).
    pose proof (handle_gestures_frame (board stA) hand_x hand_y finger_count)
      as (HDg & HEg & _).
    unfold run_invariant. simpl in *.
    split_and!; first [congruence | exact Hs3].
  - unfold enter_frame, loop_body in *.
    destruct (acquire (board st) (cap_read inp)) as [self [[h w]|]] eqn:Ha;
      [discriminate|].
    injection Hl as <- _.
    unfold acquire in Ha.
    destruct (negb (mouse_mode (board st)) && cap_opened (board st));
      [destruct (cap_read inp)|]; try discriminate.
    injection Ha as <-.
    unfold run_invariant, slots_follow_mode in *. simpl.
    split_and!; try assumption; apply Hs.
Qed.

(** Every state of the loop satisfies the invariant. *)
Lemma reachable_invariant {libm : Libm} (st : RunState) : reachable st -> run_invariant st.
Proof.
  induction 1 as [camera_ok hands_ok|st inp st' _ IH Hl].
  - apply run_invariant_start.
  - exact (run_invariant_loop_body _ _ _ _ IH Hl).
Qed.

(** ** Consecutive frames *)

(** The start of a frame clears both slots when the count differs from the
    stored one, keeps them otherwise, and stores the count. *)
Lemma enter_frame_slots {libm : Libm} (st stA : RunState) (inp : LoopInput)
    (g : option Z * option Z * Z) :
  enter_frame st inp = Some (stA, g) ->
  (count_of g <> last_finger_count st ->
     last_draw_point (board stA) = None /\ last_erase_point (board stA) = None)
  /\ (count_of g = last_finger_count st ->
      last_draw_point (board stA) = last_draw_point (board st)
      /\ last_erase_point (board stA) = last_erase_point (board st))
  /\ last_finger_count stA = count_of g.
Proof.
  destruct g as [[hand_x hand_y] finger_count]. intros Hf.
  apply loop_body_frame in Hf as (h & w & Hb & _).
  pose proof (before_gestures_frame _ _ _ _ _ _ _ _ Hb)
    as (_ & _ & _ & _ & _ & _ & Hfc & _).
  apply before_gestures_eq in Hb as [_ ->].
  set (st0 := with_board st (resize_canvas (board st) h w)) in *.
  pose proof (resize_canvas_frame (board st) h w)
    as (_ & _ & _ & _ & _ & Hld & Hle).
  destruct (gesture_change_slots st0 (count_of (hand_x, hand_y, finger_count)))
    as [Hne Heq].
  split_and!.
  - exact Hne.
  - intros E. rewrite (Heq E). simpl. done.
  - exact Hfc.
Qed.

(** After an iteration with a frame, the stored count is the frame's. *)
Lemma loop_body_last_finger_count {libm : Libm} (st stA st1 : RunState) (inp : LoopInput)
    (g : option Z * option Z * Z) (ctl : Control) :
  enter_frame st inp = Some (stA, g) ->
  loop_body st inp = (st1, ctl) ->
  last_finger_count st1 = count_of g.
Proof.
  destruct g as [[hand_x hand_y] finger_count]. intros Hf Hl.
  pose proof (enter_frame_slots _ _ _ _ Hf) as (_ & _ & Hfc).
  apply loop_body_frame in Hf as (h & w & _ & Hl').
  rewrite Hl' in Hl. cbv zeta in Hl.
  destruct (display w (raised inp)) as [[|]|]; injection Hl as <- _;
    exact Hfc.
Qed.

(** With a camera that delivers, the frame of an iteration is the one
    read. *)
Lemma enter_frame_camera {libm : Libm} (st : RunState) (inp : LoopInput) (h w : nat) :
  mouse_mode (board st) = false -> cap_opened (board st) = true ->
  cap_read inp = Some (h, w) ->
  enter_frame st inp = Some (before_gestures st h w (hands_output inp)).
Proof.
  intros Hm Hc Hr. unfold enter_frame, acquire. rewrite Hm, Hc, Hr. simpl.
  rewrite with_board_same. reflexivity.
Qed.

(** C2. Take two consecutive iterations that each have a frame.  If the
    finger count of the second frame differs from that of the first, both
    slots are empty when "Handle gestures" starts on the second frame,
    whatever the modes of the two frames; if the counts are equal, both
    slots are then what the first iteration left. *)
Theorem finger_count_change_clears_slots {libm : Libm} :
  forall (st stA st1 stB : RunState) (inp1 inp2 : LoopInput)
         (g1 g2 : option Z * option Z * Z),
    enter_frame st inp1 = Some (stA, g1) ->
    loop_body st inp1 = (st1, Continue) ->
    enter_frame st1 inp2 = Some (stB, g2) ->
    (count_of g2 <> count_of g1 ->
       last_draw_point (board stB) = None
       /\ last_erase_point (board stB) = None)
    /\ (count_of g2 = count_of g1 ->
        last_draw_point (board stB) = last_draw_point (board st1)
        /\ last_erase_point (board stB) = last_erase_point (board st1)).
Proof.
  intros st stA st1 stB inp1 inp2 g1 g2 Hf1 Hl1 Hf2.
  pose proof (loop_body_last_finger_count _ _ _ _ _ _ Hf1 Hl1) as Hfc.
  pose proof (enter_frame_slots _ _ _ _ Hf2) as (Hne & Heq & _).
  rewrite Hfc in Hne, Heq. split; assumption.
Qed.

(** C2 on a session that sees two raised fingers at (10, 11): a next frame
    with three raised fingers starts with both slots empty, a next frame
    with two raised fingers starts with the draw slot still at (10, 11). *)
Lemma finger_count_change_clears_slots_witness :
  let st := Sample.start in
  let inp1 := Sample.frame (Sample.two_fingers Sample.tip_10_11) in
  let st1 := (loop_body st inp1).1 in
  let three := Sample.frame (Sample.three_fingers Sample.tip_15_11) in
  let two := Sample.frame (Sample.two_fingers Sample.tip_15_11) in
  (last_draw_point (board (before_gestures st1 720 1280 (hands_output three)).1)
   = None
   /\ last_erase_point
        (board (before_gestures st1 720 1280 (hands_output three)).1) = None)
  /\ last_draw_point (board (before_gestures st1 720 1280 (hands_output two)).1)
     = Some (10, 11).
Proof.
  intros st inp1 st1 three two.
  assert (H1 : enter_frame st inp1
               = Some (before_gestures st 720 1280 (hands_output inp1)))
    by (apply enter_frame_camera; reflexivity).
  assert (Hl : loop_body st inp1 = (st1, Continue))
    by (apply pair_eta; reflexivity).
  assert (H3 : enter_frame st1 three
               = Some (before_gestures st1 720 1280 (hands_output three)))
    by (apply enter_frame_camera; reflexivity).
  assert (H2 : enter_frame st1 two
               = Some (before_gestures st1 720 1280 (hands_output two)))
    by (apply enter_frame_camera; reflexivity).
  rewrite (surjective_pairing (before_gestures st 720 1280 _)) in H1.
  rewrite (surjective_pairing (before_gestures st1 720 1280 (hands_output three)))
    in H3.
  rewrite (surjective_pairing (before_gestures st1 720 1280 (hands_output two)))
    in H2.
  split.
  - apply (proj1 (finger_count_change_clears_slots _ _ _ _ _ _ _ _ H1 Hl H3)).
    vm_compute. discriminate.
  - rewrite (proj1 (proj2
      (finger_count_change_clears_slots _ _ _ _ _ _ _ _ H1 Hl H2)
      ltac:(vm_compute; reflexivity))).
    vm_compute. reflexivity.
Defined.

(** ** Slots and modes *)

(** A slot that holds a point names the mode of the stored count. *)
Lemma slots_follow_action_mode (st : RunState) :
  slots_follow_mode st ->
  (last_draw_point (board st) <> None ->
     action_mode (board st) (last_finger_count st) = Drawing)
  /\ (last_erase_point (board st) <> None ->
      action_mode (board st) (last_finger_count st) = Erasing).
Proof.
  intros [Hd He]. unfold action_mode. split; intros H.
  - destruct (Hd H) as [-> ->]. rewrite Z.eqb_refl. reflexivity.
  - destruct (He H) as [Hne Hge].
    destruct (Z.eqb_spec (last_finger_count st) (FINGERS_FOR_DRAW (board st)));
      [done|]. simpl.
    destruct (Z.geb_spec (last_finger_count st) (FINGERS_FOR_ERASE (board st)));
      [reflexivity|lia].
Qed.

(** Under a count whose mode is Idle both slots are empty. *)
Lemma slots_empty_when_idle (st : RunState) :
  slots_follow_mode st ->
  action_mode (board st) (last_finger_count st) = Idle ->
  last_draw_point (board st) = None /\ last_erase_point (board st) = None.
Proof.
  intros Hs Hidle. destruct (slots_follow_action_mode st Hs) as [Hd He].
  split.
  - destruct (last_draw_point (board st)); [|reflexivity].
    rewrite Hd in Hidle by discriminate. discriminate.
  - destruct (last_erase_point (board st)); [|reflexivity].
    rewrite He in Hidle by discriminate. discriminate.
Qed.

Lemma read_gesture_no_hand {libm : Libm} (self : Board) (hands : bool) (h w : nat)
    (out : HandsOutput) :
  out = process_returns None \/ out = process_returns (Some []) ->
  read_gesture self hands h w out = (None, None, 0).
Proof.
  unfold read_gesture.
  intros [-> | ->]; destruct (negb (mouse_mode self) && hands); reflexivity.
Qed.

Lemma before_gestures_no_hand {libm : Libm} (st : RunState) (h w : nat) (out : HandsOutput) :
  out = process_returns None \/ out = process_returns (Some []) ->
  (before_gestures st h w out).2 = (None, None, 0).
Proof.
  intros H. unfold before_gestures.
  rewrite (read_gesture_no_hand _ _ _ _ _ H). reflexivity.
Qed.

(** C8. When the tracker reports no hand on a frame, the classifier
    returns count 0 and no cursor; the mode of the frame is Idle;
    "Handle gestures" leaves the state as it found it, so the frame issues
    no drawing call and the canvas is the one the resize step left (the
    board's own when the frame has the canvas's shape); both slots are
    empty after the frame, and they stay empty through the key press and
    to the end of the iteration. *)
Theorem no_hand_is_idle {libm : Libm} :
  forall (st : RunState) (h w : nat) (out : HandsOutput),
    reachable st ->
    out = process_returns None \/ out = process_returns (Some []) ->
    let stA := (before_gestures st h w out).1 in
    let st' := tick st h w out in
    detect_fingers_mediapipe h w out = (None, None, 0, [])
    /\ (before_gestures st h w out).2 = (None, None, 0)
    /\ action_mode (board stA) 0 = Idle
    /\ st' = stA
    /\ issued (board stA) (board st') = []
    /\ canvas (board st') = canvas (resize_canvas (board st) h w)
    /\ (shape (base (canvas (board st))) = (h, w) ->
        canvas (board st') = canvas (board st))
    /\ (last_draw_point (board st') = None
        /\ last_erase_point (board st') = None)
    /\ (forall key,
          last_draw_point (handle_key (board st') h w key).1 = None
          /\ last_erase_point (handle_key (board st') h w key).1 = None)
    /\ (forall inp stB g,
          hands_output inp = out ->
          enter_frame st inp = Some (stB, g) ->
          last_draw_point (board (loop_body st inp).1) = None
          /\ last_erase_point (board (loop_body st inp).1) = None).
Proof.
  intros st h w out Hr Hout stA st'.
  pose proof (reachable_invariant st Hr) as (Hcb & HD & HE & Hs).
  pose proof (before_gestures_no_hand st h w out Hout) as Hg.
  assert (Hb : before_gestures st h w out = (stA, (None, None, 0)))
    by (apply pair_eta, Hg).
  pose proof (before_gestures_frame _ _ _ _ _ _ _ _ Hb)
    as (HD' & HE' & _ & _ & _ & _ & Hfc & _).
  pose proof (slots_follow_before _ _ _ _ _ _ Hb Hs) as HsA.
  assert (Hidle : action_mode (board stA) 0 = Idle)
    by (unfold action_mode; rewrite HD', HE', HD, HE; reflexivity).
  assert (Ht : st' = stA).
  { subst st'. rewrite (tick_eq _ _ _ _ _ _ _ _ Hb).
    rewrite handle_gestures_skipped by reflexivity. apply with_board_same. }
  assert (Hslots : last_draw_point (board stA) = None
                   /\ last_erase_point (board stA) = None)
    by (apply slots_empty_when_idle; [exact HsA|rewrite Hfc; exact Hidle]).
  rewrite Ht. split_and!.
  - destruct Hout as [-> | ->]; reflexivity.
  - exact Hg.
  - exact Hidle.
  - reflexivity.
  - apply issued_same_canvas. reflexivity.
  - apply before_gestures_canvas.
  - intros Hshape. unfold stA. rewrite before_gestures_canvas, resize_canvas_canvas.
    rewrite decide_False by (intros Hne; apply Hne, Hshape). reflexivity.
  - apply Hslots.
  - apply Hslots.
  - intros key.
    pose proof (handle_key_frame (board stA) h w key) as (_ & _ & _ & H).
    destruct Hslots as [H1 H2].
    destruct H as [H|(-> & -> & _)]; [exact H|split; assumption].
  - intros inp stB g Hin Hf.
    destruct (loop_body st inp) as [st1 ctl] eqn:Hl. simpl.
    pose proof (run_invariant_loop_body _ _ _ _ (reachable_invariant st Hr) Hl)
      as (_ & HD1 & HE1 & Hs1).
    pose proof (loop_body_last_finger_count _ _ _ _ _ _ Hf Hl) as Hfc1.
    destruct g as [[hand_x hand_y] finger_count].
    apply loop_body_frame in Hf as (h' & w' & Hb' & _).
    pose proof (before_gestures_no_hand st h' w' out Hout) as Hg'.
    rewrite <- Hin, Hb' in Hg'. simpl in Hg'. injection Hg' as _ _ ->.
    apply slots_empty_when_idle; [exact Hs1|].
    rewrite Hfc1. unfold action_mode, count_of. simpl.
    rewrite HD1, HE1. reflexivity.
Qed.

(** C8 on a session that has just drawn at (10, 11): the next frame shows
    no hand, and the draw slot is empty after it. *)
Lemma no_hand_is_idle_witness :
  let st := Sample.after [Sample.frame (Sample.two_fingers Sample.tip_10_11)] in
  last_draw_point (board st) = Some (10, 11)
  /\ last_draw_point (board (tick st 720 1280 Sample.no_hand)) = None
  /\ last_erase_point (board (tick st 720 1280 Sample.no_hand)) = None.
Proof.
  intros st. split; [vm_compute; reflexivity|].
  refine (proj1 (proj2 (proj2 (proj2 (proj2 (proj2 (proj2 (proj2
    (no_hand_is_idle st 720 1280 Sample.no_hand _ (or_introl eq_refl)))))))))).
  apply reachable_after. reflexivity.
Defined.

Lemma action_mode_ext (self self' : Board) (finger_count : Z) :
  FINGERS_FOR_DRAW self' = FINGERS_FOR_DRAW self ->
  FINGERS_FOR_ERASE self' = FINGERS_FOR_ERASE self ->
  drawing_mode self' = drawing_mode self ->
  action_mode self' finger_count = action_mode self finger_count.
Proof. unfold action_mode. intros -> -> ->. reflexivity. Qed.

Lemma action_mode_cases (self : Board) (finger_count : Z) :
  (action_mode self finger_count = Drawing <->
     finger_count = FINGERS_FOR_DRAW self /\ drawing_mode self = true)
  /\ (action_mode self finger_count = Erasing <->
      ~ (finger_count = FINGERS_FOR_DRAW self /\ drawing_mode self = true)
      /\ finger_count >= FINGERS_FOR_ERASE self)
  /\ (action_mode self finger_count = Idle <->
      ~ (finger_count = FINGERS_FOR_DRAW self /\ drawing_mode self = true)
      /\ finger_count < FINGERS_FOR_ERASE self).
Proof.
  unfold action_mode.
  destruct (Z.eqb_spec finger_count (FINGERS_FOR_DRAW self)) as [E|E];
    destruct (drawing_mode self); simpl;
    destruct (Z.geb_spec finger_count (FINGERS_FOR_ERASE self));
    (split; [|split]); split; try discriminate; try tauto; try lia;
    intros [H1 H2]; try lia; exfalso; apply H1; done.
Qed.

(** C7. In every state of the loop, for an iteration with a frame:
    - a slot that holds a point when the iteration ends names the mode of
      the frame just handled (draw slot: Drawing, erase slot: Erasing), so
      a slot whose mode was not the frame's is empty;
    - both slots are empty when "Handle gestures" starts on a frame whose
      finger count differs from the previous one, and when the iteration
      ends with the base mode toggled;
    - a slot whose point is not within the jump guard of the cursor starts
      a new stroke: the frame handles it as an empty slot, only the disk is
      issued, no line, and the slot takes the cursor;
    - on an Idle frame with a cursor nothing is issued, the canvas stays as
      it was, and both slots are empty. *)
Theorem slots_follow_the_frames {libm : Libm} :
  forall (st stA st1 : RunState) (inp : LoopInput)
         (hand_x hand_y : option Z) (finger_count : Z) (ctl : Control),
    reachable st ->
    enter_frame st inp = Some (stA, (hand_x, hand_y, finger_count)) ->
    loop_body st inp = (st1, ctl) ->
    let mode := action_mode (board stA) finger_count in
    let self' := handle_gestures (board stA) hand_x hand_y finger_count in
    ((last_draw_point (board st1) <> None -> mode = Drawing)
     /\ (last_erase_point (board st1) <> None -> mode = Erasing))
    /\ (finger_count <> last_finger_count st ->
        last_draw_point (board stA) = None
        /\ last_erase_point (board stA) = None)
    /\ (drawing_mode (board st1) <> drawing_mode (board st) ->
        last_draw_point (board st1) = None
        /\ last_erase_point (board st1) = None)
    /\ (forall x y p,
          hand_x = Some x -> hand_y = Some y -> x <> 0 -> y <> 0 ->
          within_jump x y p = false ->
          (mode = Drawing -> last_draw_point (board stA) = Some p ->
             issued (board stA) self' = [draw_disk (board stA) x y]
             /\ last_draw_point self' = Some (x, y))
          /\ (mode = Erasing -> last_erase_point (board stA) = Some p ->
              issued (board stA) self' = [erase_disk (board stA) x y]
              /\ last_erase_point self' = Some (x, y)))
    /\ (mode = Idle -> hand_x <> None ->
        canvas self' = canvas (board stA)
        /\ issued (board stA) self' = []
        /\ last_draw_point self' = None
        /\ last_erase_point self' = None).
Proof.
  intros st stA st1 inp hand_x hand_y finger_count ctl Hr Hf Hl mode self'.
  pose proof (reachable_invariant st Hr) as (Hcb & HD & HE & Hs).
  pose proof (run_invariant_loop_body _ _ _ _ (reachable_invariant st Hr) Hl)
    as (_ & HD1 & HE1 & Hs1).
  pose proof (loop_body_last_finger_count _ _ _ _ _ _ Hf Hl) as Hfc1.
  pose proof (enter_frame_slots _ _ _ _ Hf) as (Hne & _ & HfcA).
  unfold count_of in Hfc1, Hne, HfcA. simpl in Hfc1, Hne, HfcA.
  destruct (loop_body_frame_state _ _ _ _ _ _ Hcb Hf)
    as (h & w & key & Hb & _ & Hl').
  pose proof (before_gestures_frame _ _ _ _ _ _ _ _ Hb)
    as (HDA & HEA & HdmA & _ & _ & HcbA & _ & Hm & _).
  pose proof (slots_follow_before _ _ _ _ _ _ Hb Hs) as HsA.
  pose proof (handle_gestures_frame (board stA) hand_x hand_y finger_count)
    as (HDg & HEg & Hdmg & _).
  fold self' in HDg, HEg, Hdmg.
  rewrite Hl in Hl'. simpl in Hl'. fold self' in Hl'.
  assert (Hb1 : board st1 = (handle_key self' h w key).1)
    by (rewrite Hl'; reflexivity).
  pose proof (handle_key_frame self' h w key) as (_ & _ & _ & Hkey).
  cbv zeta in Hkey. rewrite <- Hb1 in Hkey.
  destruct (action_mode_cases (board stA) finger_count)
    as (Hdraw & Herase & Hidle).
  fold mode in Hdraw, Herase, Hidle.
  assert (Hmode1 : last_draw_point (board st1) <> None
                   \/ last_erase_point (board st1) <> None ->
                   action_mode (board st1) finger_count = mode).
  { intros Hp. apply action_mode_ext; try congruence.
    destruct Hkey as [[H1 H2]|(_ & _ & Hdm)]; [|congruence].
    destruct Hp as [Hp|Hp]; [destruct (Hp H1)|destruct (Hp H2)]. }
  destruct (slots_follow_action_mode st1 Hs1) as [HA1 HA2].
  rewrite Hfc1 in HA1, HA2.
  split_and!.
  - intros H. rewrite <- Hmode1 by (left; exact H). apply HA1, H.
  - intros H. rewrite <- Hmode1 by (right; exact H). apply HA2, H.
  - exact Hne.
  - intros Hdm. destruct Hkey as [H|(_ & _ & Hdm')]; [exact H|].
    exfalso. apply Hdm. congruence.
  - intros x y p -> -> Hx Hy Hfar.
    assert (Hmm : mouse_mode (board stA) = false)
      by (apply Hm; left; discriminate).
    pose proof (handle_gestures_present (board stA) x y finger_count Hx Hy Hmm)
      as Hg.
    fold self' in Hg. cbv zeta in Hg.
    split.
    + intros Hmode Hp. apply Hdraw in Hmode as [Hc Hdm].
      rewrite Hc, Z.eqb_refl, Hdm in Hg. rewrite Hg.
      rewrite (issued_hand_pos _ _ (x, y)), draw_issued. simpl.
      rewrite Hp, Hfar. split; [reflexivity|].
      apply (proj1 (draw_slots (set_hand_pos (x, y) (board stA)) x y)).
    + intros Hmode Hp. apply Herase in Hmode as [_ Hge].
      assert (Hc : (finger_count =? FINGERS_FOR_DRAW (board stA)) = false)
        by (apply Z.eqb_neq; lia).
      rewrite Hc in Hg.
      destruct (Z.geb_spec finger_count (FINGERS_FOR_ERASE (board stA)));
        [|lia].
      rewrite Hg.
      rewrite (issued_hand_pos _ _ (x, y)), erase_issued. simpl.
      rewrite Hp, Hfar. split; [reflexivity|].
      apply (proj1 (erase_slots (set_hand_pos (x, y) (board stA)) x y)).
  - apply proj1 in Hidle.
    assert (Hempty : mode = Idle ->
              last_draw_point (board stA) = None
              /\ last_erase_point (board stA) = None).
    { intros Hmode. apply slots_empty_when_idle; [exact HsA|].
      rewrite HfcA. exact Hmode. }
    assert (Hall : mode = Idle ->
              canvas self' = canvas (board stA)
              /\ last_draw_point self' = None
              /\ last_erase_point self' = None).
    { intros Hmode. destruct (Hempty Hmode) as [H1 H2].
      destruct (Hidle Hmode) as [Hnot Hlt].
      destruct (handle_gestures_cases (board stA) hand_x hand_y finger_count)
        as [E|(x & y & _ & _ & _ & _ & _ & H)].
      - fold self' in E. rewrite E. done.
      - cbv zeta in H. fold self' in H.
        destruct H as [(Hc & Hdm & _)|[(_ & _ & ->)|[(_ & Hge & _)|(_ & _ & ->)]]].
        + exfalso. apply Hnot. done.
        + simpl. done.
        + lia.
        + simpl. done. }
    intros Hmode _. destruct (Hall Hmode) as (Hc & H1 & H2).
    split_and!; [exact Hc|apply issued_same_canvas, Hc|exact H1|exact H2].
Qed.

(** C7 on the session that has drawn at (10, 11) and then sees
    two raised fingers at (640, 360): the second frame issues the brush
    disk alone and the draw slot takes the cursor. *)
Lemma slots_follow_the_frames_witness :
  let st := Sample.after [Sample.frame (Sample.two_fingers Sample.tip_10_11)] in
  let inp := Sample.frame (Sample.two_fingers Sample.tip_far) in
  let stA := (before_gestures st 720 1280 (hands_output inp)).1 in
  let self' := handle_gestures (board stA) (Some 640) (Some 360) 2 in
  issued (board stA) self' = [draw_disk (board stA) 640 360]
  /\ last_draw_point self' = Some (640, 360).
Proof.
  intros st inp stA self'.
  assert (Hr : reachable st) by (apply reachable_after; reflexivity).
  assert (Hf0 : enter_frame st inp
                = Some (before_gestures st 720 1280 (hands_output inp)))
    by (apply enter_frame_camera; reflexivity).
  assert (Hg : (before_gestures st 720 1280 (hands_output inp)).2
               = (Some 640, Some 360, 2))
    by (vm_compute; reflexivity).
  assert (Hf : enter_frame st inp = Some (stA, (Some 640, Some 360, 2)))
    by exact (eq_trans Hf0 (f_equal Some
                (pair_eta (before_gestures st 720 1280 (hands_output inp))
                   _ Hg))).
  assert (Hl : loop_body st inp = ((loop_body st inp).1, (loop_body st inp).2))
    by apply surjective_pairing.
  refine (proj1 (proj1 (proj2 (proj2 (proj2
    (slots_follow_the_frames st stA _ inp (Some 640) (Some 360) 2 _ Hr Hf Hl))))
    640 360 (10, 11) eq_refl eq_refl _ _ _) _ _).
  - lia.
  - lia.
  - vm_compute. reflexivity.
  - vm_compute. reflexivity.
  - vm_compute. reflexivity.
Defined.

(** ** The mouse fallback *)

(** X1. The constructor leaves [mouse_mode] false whether or not a camera
    opened, since the assignment of the UI block comes after
    [init_camera]; [run] therefore never installs the mouse callback, and
    in every state of the loop [handle_mouse] has no way to run: the mouse
    events of an iteration change nothing of what the iteration does. *)
Theorem mouse_callback_is_never_installed {libm : Libm} :
  forall st : RunState,
    reachable st ->
    mouse_callback st = false
    /\ (forall camera_ok,
          mouse_mode (GestureDrawingBoard_init camera_ok) = false)
    /\ (forall camera_ok hands_ok,
          mouse_callback (run_start camera_ok hands_ok) = false)
    /\ (forall inp events,
          loop_body st inp
          = loop_body st
              {| cap_read := cap_read inp; hands_output := hands_output inp;
                 raised := raised inp; mouse_events := events;
                 wait_key := wait_key inp |}).
Proof.
  intros st Hr.
  pose proof (reachable_invariant st Hr) as (Hcb & _).
  split_and!; [exact Hcb|reflexivity|reflexivity|].
  intros inp events. unfold loop_body. simpl.
  destruct (acquire (board st) (cap_read inp)) as [self [[h w]|]] eqn:Ha;
    [|reflexivity].
  apply acquire_Some in Ha as ->. rewrite with_board_same.
  destruct (before_gestures st h w (hands_output inp))
    as [stA [[hand_x hand_y] finger_count]] eqn:Hb.
  rewrite (tick_eq _ _ _ _ _ _ _ _ Hb).
  pose proof (before_gestures_frame _ _ _ _ _ _ _ _ Hb)
    as (_ & _ & _ & _ & _ & HcbA & _).
  destruct (display w (raised inp)) as [[|]|]; try reflexivity.
  simpl. rewrite HcbA, Hcb. reflexivity.
Qed.

(** X1 on the state a session starts in when no camera opened. *)
Lemma mouse_callback_is_never_installed_witness :
  mouse_callback (run_start false true) = false.
Proof.
  exact (proj1 (mouse_callback_is_never_installed (run_start false true)
                  (reachable_start false true))).
Defined.

(** ** The jump guard on canvas distances *)

Lemma float_of_int_uint63 (n : Z) :
  0 <= n < 2 ^ 63 ->
  Py.float_of_int n = PrimFloat.of_uint63 (Uint63.of_Z n).
Proof.
  intros Hn. unfold Py.float_of_int.
  rewrite <- (SF2Prim_Prim2SF (PrimFloat.of_uint63 (Uint63.of_Z n))).
  rewrite of_uint63_spec, Uint63.of_Z_spec.
  rewrite Z.mod_small by exact Hn. reflexivity.
Qed.

Lemma within_jump_squares_wide (x y x1 y1 : Z) :
  (x - x1) ^ 2 + (y - y1) ^ 2 < 8388608 ->
  within_jump x y (x1, y1) = ((x - x1) ^ 2 + (y - y1) ^ 2 <? 10000).
Proof.
  intros Hlt. unfold within_jump, distance. simpl.
  set (d2 := (x - x1) ^ 2 + (y - y1) ^ 2) in *.
  assert (Hd : 0 <= d2 < 8388608) by (subst d2; nia).
  assert (Hall : all_from 8388608 guard_agrees_fast 0 = true)
    by (vm_compute; reflexivity).
  pose proof (all_from_spec _ _ _ Hall d2 ltac:(lia)) as H.
  unfold guard_agrees_fast in H. apply Bool.eqb_prop in H.
  rewrite float_of_int_uint63 by lia. exact H.
Qed.

(** X2. For two integer points whose squared distance is below 2^23 (any
    two points of a 1920 x 1080 canvas are), the floating-point guard of
    [draw_on_canvas] is the exact test "squared distance < 10000": in draw
    and in erase mode the connecting line from the stored point is issued
    exactly then, so the rounding of the square root never decides. *)
Theorem jump_guard_is_the_squared_distance_test :
  forall (self : Board) (x y x1 y1 : Z),
    (x - x1) ^ 2 + (y - y1) ^ 2 < 8388608 ->
    (last_draw_point self = Some (x1, y1) ->
       issued self (draw_on_canvas self x y "draw") =
       draw_disk self x y ::
         (if (x - x1) ^ 2 + (y - y1) ^ 2 <? 10000
          then [draw_line self x y (x1, y1)] else []))
    /\ (last_erase_point self = Some (x1, y1) ->
        issued self (draw_on_canvas self x y "erase") =
        erase_disk self x y ::
          (if (x - x1) ^ 2 + (y - y1) ^ 2 <? 10000
           then [erase_line self x y (x1, y1)] else [])).
Proof.
  intros self x y x1 y1 Hlt.
  pose proof (within_jump_squares_wide x y x1 y1 Hlt) as Hw.
  split; intros Hp.
  - rewrite draw_issued, Hp, Hw. reflexivity.
  - rewrite erase_issued, Hp, Hw. reflexivity.
Qed.

(** X2 at distance exactly 100, from (0, 0) to (60, 80): no line. *)
Lemma jump_guard_is_the_squared_distance_test_witness :
  let self := set_last_draw_point (Some (0, 0)) (GestureDrawingBoard_init true) in
  issued self (draw_on_canvas self 60 80 "draw") = [draw_disk self 60 80].
Proof.
  intros self.
  exact (proj1 (jump_guard_is_the_squared_distance_test self 60 80 0 0
                  eq_refl) eq_refl).
Defined.

(** ** The mouse callback: [handle_mouse] *)

Lemma handle_mouse_drag (self : Board) (x y : Z) :
  handle_mouse self (drag x y) =
  draw_on_canvas (set_hand_pos (x, y) self) x y
    (if drawing_mode self then "draw" else "erase")%string.
Proof. reflexivity. Qed.

(** X3. A press of the left button starts a new stroke: whatever the
    slots held, the first dragged sample issues its disk alone (brush disk
    in write mode, eraser disk in erase mode) and takes the slot of its
    mode; the next dragged sample is joined to it exactly when it is
    within the jump guard; a move without the button issues nothing and
    only records the position; releasing the button empties both slots. *)
Theorem mouse_press_starts_a_new_stroke :
  forall (self : Board) (x0 y0 x y x' y' : Z),
    let pressed := handle_mouse self (button_down x0 y0) in
    let first := handle_mouse pressed (drag x y) in
    let second := handle_mouse first (drag x' y') in
    issued self pressed = []
    /\ issued self first =
       [if drawing_mode self then draw_disk self x y else erase_disk self x y]
    /\ (if drawing_mode self
        then last_draw_point first = Some (x, y)
             /\ last_erase_point first = None
        else last_erase_point first = Some (x, y)
             /\ last_draw_point first = None)
    /\ issued first second =
       (if drawing_mode self
        then draw_disk self x' y' ::
               (if within_jump x' y' (x, y)
                then [draw_line self x' y' (x, y)] else [])
        else erase_disk self x' y' ::
               (if within_jump x' y' (x, y)
                then [erase_line self x' y' (x, y)] else []))
    /\ (issued second (handle_mouse second (hover x0 y0)) = []
        /\ hand_pos (handle_mouse second (hover x0 y0)) = (x0, y0)
        /\ last_draw_point (handle_mouse second (hover x0 y0))
           = last_draw_point second
        /\ last_erase_point (handle_mouse second (hover x0 y0))
           = last_erase_point second)
    /\ (last_draw_point (handle_mouse second (button_up x0 y0)) = None
        /\ last_erase_point (handle_mouse second (button_up x0 y0)) = None
        /\ canvas (handle_mouse second (button_up x0 y0)) = canvas second).
Proof.
  intros self x0 y0 x y x' y' pressed first second.
  assert (Hp : pressed = reset_last_points (set_is_drawing true self))
    by reflexivity.
  assert (Hdm : drawing_mode pressed = drawing_mode self) by reflexivity.
  assert (Hf : first = draw_on_canvas (set_hand_pos (x, y) pressed) x y
                         (if drawing_mode self then "draw" else "erase")%string)
    by (subst first; rewrite handle_mouse_drag, Hdm; reflexivity).
  assert (Hdm1 : drawing_mode first = drawing_mode self).
  { rewrite Hf.
    pose proof (draw_on_canvas_frame (set_hand_pos (x, y) pressed) x y
                  (if drawing_mode self then "draw" else "erase")%string)
      as (_ & _ & H & _). exact H. }
  assert (Hs : second = draw_on_canvas (set_hand_pos (x', y') first) x' y'
                          (if drawing_mode self then "draw" else "erase")%string)
    by (subst second; rewrite handle_mouse_drag, Hdm1; reflexivity).
  assert (Hbr : brush_size first = brush_size self
                /\ current_color first = current_color self
                /\ eraser_size first = eraser_size self).
  { rewrite Hf. unfold draw_on_canvas.
    destruct (drawing_mode self); simpl; done. }
  destruct Hbr as (Hb1 & Hc1 & He1).
  split_and!.
  - apply issued_same_canvas. reflexivity.
  - rewrite Hf. destruct (drawing_mode self).
    + change (issued self ?b) with (issued (set_hand_pos (x, y) pressed) b).
      rewrite draw_issued. reflexivity.
    + change (issued self ?b) with (issued (set_hand_pos (x, y) pressed) b).
      rewrite erase_issued. reflexivity.
  - rewrite Hf. destruct (drawing_mode self).
    + destruct (draw_slots (set_hand_pos (x, y) pressed) x y) as [-> ->]. done.
    + destruct (erase_slots (set_hand_pos (x, y) pressed) x y) as [-> ->]. done.
  - rewrite Hs.
    change (issued first ?b) with (issued (set_hand_pos (x', y') first) b).
    assert (Hslots : if drawing_mode self
                     then last_draw_point first = Some (x, y)
                     else last_erase_point first = Some (x, y)).
    { rewrite Hf. destruct (drawing_mode self).
      - apply draw_slots.
      - apply erase_slots. }
    destruct (drawing_mode self).
    + rewrite draw_issued. simpl. rewrite Hslots.
      unfold draw_disk, draw_line. simpl. rewrite Hb1, Hc1. reflexivity.
    + rewrite erase_issued. simpl. rewrite Hslots.
      unfold erase_disk, erase_line. simpl. rewrite He1. reflexivity.
  - apply issued_same_canvas. reflexivity.
  - reflexivity.
  - reflexivity.
  - reflexivity.
  - reflexivity.
  - reflexivity.
  - reflexivity.
Qed.

(** ** The keys *)

Lemma handle_key_control (self : Board) (h w : nat) (key : Z) :
  (handle_key self h w key).2 = if key =? 27 then Break else Continue.
Proof.
  unfold handle_key. repeat case_match; reflexivity.
Qed.

(** X4. The space key toggles the base mode and empties both slots and
    changes nothing else: pressed twice, it gives back the board with its
    slots emptied. *)
Theorem space_toggles_and_resets :
  forall (self : Board) (h w : nat),
    drawing_mode (press KEY_SPACE h w self) = negb (drawing_mode self)
    /\ last_draw_point (press KEY_SPACE h w self) = None
    /\ last_erase_point (press KEY_SPACE h w self) = None
    /\ canvas (press KEY_SPACE h w self) = canvas self
    /\ press KEY_SPACE h w (press KEY_SPACE h w self) = reset_last_points self
    /\ (handle_key self h w KEY_SPACE).2 = Continue.
Proof.
  intros self h w. split_and!; try reflexivity.
  destruct self; unfold press; simpl. rewrite negb_involutive. reflexivity.
Qed.

(** X5. The 'r' key leaves a canvas of the frame's shape with every pixel
    dark gray and no drawing call, and empty slots; the first sample drawn
    afterwards is a lone disk on that canvas; colour, brush and base mode
    are kept. *)
Theorem clear_key_gives_a_fresh_canvas :
  forall (self : Board) (h w : nat) (x y : Z),
    let cleared := press KEY_R h w self in
    shape (base (canvas cleared)) = (h, w)
    /\ (forall r c, (r < h)%nat -> (c < w)%nat ->
          pixel (base (canvas cleared)) r c = Some dark_gray)
    /\ calls (canvas cleared) = []
    /\ last_draw_point cleared = None
    /\ last_erase_point cleared = None
    /\ calls (canvas (draw_on_canvas cleared x y "draw")) = [draw_disk self x y]
    /\ calls (canvas (draw_on_canvas cleared x y "erase")) = [erase_disk self x y]
    /\ current_color cleared = current_color self
    /\ brush_size cleared = brush_size self
    /\ drawing_mode cleared = drawing_mode self.
Proof.
  intros self h w x y cleared. split_and!; try reflexivity.
  intros r c Hr Hc.
  change (base (canvas cleared)) with (base (canvas (init_canvas self w h))).
  rewrite pixel_init_canvas, decide_True by done. reflexivity.
Qed.
(** *** Cycling colour and brush size *)

Lemma index_or_0_lookup `{EqDecision A} (l : list A) (i : nat) (v : A) :
  base.NoDup l -> l !! i = Some v -> index_or_0 v l = i.
Proof.
  intros Hnd Hi. unfold index_or_0.
  destruct (list_find (fun a => a = v) l) as [[j y]|] eqn:Hf.
  - apply list_find_Some in Hf as (Hj & -> & _).
    exact (NoDup_lookup l j i v Hnd Hj Hi).
  - apply list_find_None in Hf.
    apply list_elem_of_lookup_2 in Hi.
    rewrite Forall_forall in Hf. destruct (Hf v Hi eq_refl).
Qed.

Lemma index_or_0_absent `{EqDecision A} (l : list A) (v : A) :
  v ∉ l -> index_or_0 v l = 0%nat.
Proof.
  intros Hv. unfold index_or_0.
  destruct (list_find (fun a => a = v) l) as [[j y]|] eqn:Hf; [|reflexivity].
  apply list_find_Some in Hf as (Hj & -> & _).
  apply list_elem_of_lookup_2 in Hj. destruct (Hv Hj).
Qed.

Lemma colors_NoDup : base.NoDup colors.
Proof.
  apply NoDup_ListNoDup.
  repeat (constructor; [simpl; intuition congruence|]). constructor.
Qed.

Lemma sizes_NoDup : base.NoDup sizes.
Proof.
  apply NoDup_ListNoDup.
  repeat (constructor; [simpl; intuition congruence|]). constructor.
Qed.

Lemma mod_succ_step (i k n : nat) :
  (0 < n)%nat -> (((i + k) mod n + 1) mod n = (i + S k) mod n)%nat.
Proof.
  intros Hn. rewrite Nat.Div0.add_mod_idemp_l. f_equal. lia.
Qed.

Lemma press_c_eq (self : Board) (h w : nat) :
  press KEY_C h w self =
  match colors !! ((index_or_0 (current_color self) colors + 1)
                   mod length colors)%nat with
  | Some c => set_current_color c self
  | None => self
  end.
Proof. unfold press, handle_key, KEY_C. cbn [Z.eqb Pos.eqb]. destruct (colors !! _); reflexivity. Qed.

Lemma press_s_eq (self : Board) (h w : nat) :
  press KEY_S h w self =
  match sizes !! ((index_or_0 (brush_size self) sizes + 1)
                  mod length sizes)%nat with
  | Some s => set_brush_size s self
  | None => self
  end.
Proof. unfold press, handle_key, KEY_S. cbn [Z.eqb Pos.eqb]. destruct (sizes !! _); reflexivity. Qed.

(** One press of 'c' from the colour at index [i] selects the colour at
    the next index, cyclically, and touches nothing else. *)
Lemma press_c_next (self : Board) (h w i : nat) (c : Color) :
  colors !! i = Some c -> current_color self = c ->
  Some (current_color (press KEY_C h w self))
  = colors !! ((i + 1) mod length colors)%nat.
Proof.
  intros Hi Hc. rewrite press_c_eq.
  rewrite Hc, (index_or_0_lookup colors i c colors_NoDup Hi).
  assert (Hlt : ((i + 1) mod length colors < length colors)%nat)
    by (apply Nat.mod_upper_bound; discriminate).
  apply lookup_lt_is_Some in Hlt as [c' Hc'].
  rewrite Hc'. reflexivity.
Qed.

Lemma press_s_next (self : Board) (h w i : nat) (s : Z) :
  sizes !! i = Some s -> brush_size self = s ->
  Some (brush_size (press KEY_S h w self))
  = sizes !! ((i + 1) mod length sizes)%nat.
Proof.
  intros Hi Hs. rewrite press_s_eq.
  rewrite Hs, (index_or_0_lookup sizes i s sizes_NoDup Hi).
  assert (Hlt : ((i + 1) mod length sizes < length sizes)%nat)
    by (apply Nat.mod_upper_bound; discriminate).
  apply lookup_lt_is_Some in Hlt as [s' Hs'].
  rewrite Hs'. reflexivity.
Qed.

Lemma iter_press_c (self : Board) (h w i : nat) (c : Color) (k : nat) :
  colors !! i = Some c -> current_color self = c ->
  Some (current_color (Nat.iter k (press KEY_C h w) self))
  = colors !! ((i + k) mod length colors)%nat.
Proof.
  intros Hi Hc. induction k as [|k IH].
  - change (Nat.iter 0 ?f ?x) with x.
    rewrite Nat.add_0_r, Nat.mod_small by exact (lookup_lt_Some _ _ _ Hi).
    congruence.
  - rewrite Nat.iter_succ. symmetry in IH.
    rewrite (press_c_next _ h w _ _ IH eq_refl).
    rewrite mod_succ_step by apply Nat.lt_0_succ. reflexivity.
Qed.

Lemma iter_press_s (self : Board) (h w i : nat) (s : Z) (k : nat) :
  sizes !! i = Some s -> brush_size self = s ->
  Some (brush_size (Nat.iter k (press KEY_S h w) self))
  = sizes !! ((i + k) mod length sizes)%nat.
Proof.
  intros Hi Hs. induction k as [|k IH].
  - change (Nat.iter 0 ?f ?x) with x.
    rewrite Nat.add_0_r, Nat.mod_small by exact (lookup_lt_Some _ _ _ Hi).
    congruence.
  - rewrite Nat.iter_succ. symmetry in IH.
    rewrite (press_s_next _ h w _ _ IH eq_refl).
    rewrite mod_succ_step by apply Nat.lt_0_succ. reflexivity.
Qed.

Lemma cycle_returns (i k n : nat) :
  (i < n)%nat -> ((i + k) mod n = i <-> k mod n = 0)%nat.
Proof.
  intros Hi.
  pose proof (Nat.div_mod_eq k n). pose proof (Nat.div_mod_eq (i + k) n).
  pose proof (Nat.mod_upper_bound k n ltac:(lia)).
  pose proof (Nat.mod_upper_bound (i + k) n ltac:(lia)).
  split; intros E.
  - assert (n * ((i + k) / n - k / n) = k mod n)%nat by nia.
    destruct ((i + k) / n - k / n)%nat; nia.
  - assert (n * ((i + k) / n) + (i + k) mod n = n * (k / n) + i)%nat by lia.
    assert ((i + k) / n = k / n)%nat by nia. nia.
Qed.

(** X6. From a colour of the palette, 'c' walks the eight colours in
    order and cyclically: after [k] presses the colour is the same again
    exactly when [k] is a multiple of 8, and it is always a palette
    colour; the key changes no other attribute.  From a colour that is not
    in the palette one press selects green, the second entry. *)
Theorem color_key_cycles_the_palette :
  forall (self : Board) (h w : nat),
    (current_color self ∈ colors ->
     forall k,
       (current_color (Nat.iter k (press KEY_C h w) self) = current_color self
        <-> (k mod 8 = 0)%nat)
       /\ current_color (Nat.iter k (press KEY_C h w) self) ∈ colors)
    /\ (current_color self ∉ colors ->
        current_color (press KEY_C h w self) = (0, 255, 0))
    /\ press KEY_C h w self
       = set_current_color (current_color (press KEY_C h w self)) self.
Proof.
  intros self h w. split_and!.
  - intros Hin k.
    apply list_elem_of_lookup_1 in Hin as [i Hi].
    pose proof (iter_press_c self h w i _ k Hi eq_refl) as Hk.
    pose proof (lookup_lt_Some _ _ _ Hi) as Hlt.
    change (length colors) with 8%nat in *.
    split.
    + rewrite <- (cycle_returns i k 8 Hlt). split.
      * intros E. rewrite E in Hk. symmetry in Hk.
        exact (NoDup_lookup colors _ _ _ colors_NoDup Hk Hi).
      * intros E. rewrite E, Hi in Hk. congruence.
    + symmetry in Hk. exact (list_elem_of_lookup_2 _ _ _ Hk).
  - intros Hout. rewrite press_c_eq.
    rewrite (index_or_0_absent colors _ Hout). reflexivity.
  - rewrite press_c_eq.
    destruct (colors !! _); destruct self; reflexivity.
Qed.

(** X6 from the constructor's green: eight presses give green again. *)
Lemma color_key_cycles_the_palette_witness :
  let self := GestureDrawingBoard_init true in
  current_color (Nat.iter 8 (press KEY_C 720 1280) self) = current_color self.
Proof.
  intros self.
  refine (proj2 (proj1 (proj1 (color_key_cycles_the_palette self 720%nat 1280%nat) _ 8%nat))
            eq_refl).
  apply (list_elem_of_lookup_2 colors 1%nat (0, 255, 0)). reflexivity.
Defined.

(** X7. From a size of the list 5, 8, 12, 20, 30, 50 the 's' key walks the
    list in order and cyclically: after [k] presses the brush size is the
    same again exactly when [k] is a multiple of 6, and it is always a
    size of the list; the key changes no other attribute.  From any other
    size one press selects 8. *)
Theorem size_key_cycles_the_sizes :
  forall (self : Board) (h w : nat),
    (brush_size self ∈ sizes ->
     forall k,
       (brush_size (Nat.iter k (press KEY_S h w) self) = brush_size self
        <-> (k mod 6 = 0)%nat)
       /\ brush_size (Nat.iter k (press KEY_S h w) self) ∈ sizes)
    /\ (brush_size self ∉ sizes -> brush_size (press KEY_S h w self) = 8)
    /\ press KEY_S h w self
       = set_brush_size (brush_size (press KEY_S h w self)) self.
Proof.
  intros self h w. split_and!.
  - intros Hin k.
    apply list_elem_of_lookup_1 in Hin as [i Hi].
    pose proof (iter_press_s self h w i _ k Hi eq_refl) as Hk.
    pose proof (lookup_lt_Some _ _ _ Hi) as Hlt.
    change (length sizes) with 6%nat in *.
    split.
    + rewrite <- (cycle_returns i k 6 Hlt). split.
      * intros E. rewrite E in Hk. symmetry in Hk.
        exact (NoDup_lookup sizes _ _ _ sizes_NoDup Hk Hi).
      * intros E. rewrite E, Hi in Hk. congruence.
    + symmetry in Hk. exact (list_elem_of_lookup_2 _ _ _ Hk).
  - intros Hout. rewrite press_s_eq.
    rewrite (index_or_0_absent sizes _ Hout). reflexivity.
  - rewrite press_s_eq.
    destruct (sizes !! _); destruct self; reflexivity.
Qed.

(** X7 from the constructor's size 8: six presses give 8 again. *)
Lemma size_key_cycles_the_sizes_witness :
  let self := GestureDrawingBoard_init true in
  brush_size (Nat.iter 6 (press KEY_S 720 1280) self) = brush_size self.
Proof.
  intros self.
  refine (proj2 (proj1 (proj1 (size_key_cycles_the_sizes self 720%nat 1280%nat) _ 6%nat))
            eq_refl).
  apply (list_elem_of_lookup_2 sizes 1%nat 8). reflexivity.
Defined.

(** X8. The name the 'c' key prints after "Color changed to:" is the name
    of the colour the board had when the key arrived, at the index the
    colour is being moved away from; it is never the name of the colour
    the key has just selected. *)
Theorem color_key_prints_the_previous_name :
  forall (self : Board) (h w i : nat) (c : Color),
    colors !! i = Some c ->
    current_color self = c ->
    color_key_print self = color_names !! i
    /\ Some (current_color (press KEY_C h w self))
       = colors !! ((i + 1) mod 8)%nat
    /\ color_key_print self <> color_names !! ((i + 1) mod 8)%nat
    /\ color_key_print self <> None.
Proof.
  intros self h w i c Hi Hc.
  assert (Hp : color_key_print self = color_names !! i).
  { unfold color_key_print.
    rewrite Hc, (index_or_0_lookup colors i c colors_NoDup Hi). reflexivity. }
  rewrite Hp. split_and!.
  - reflexivity.
  - apply (press_c_next self h w i c Hi Hc).
  - pose proof (lookup_lt_Some _ _ _ Hi) as Hlt. simpl in Hlt.
    do 8 (destruct i as [|i]; [vm_compute; discriminate|]). lia.
  - pose proof (lookup_lt_Some _ _ _ Hi) as Hlt. simpl in Hlt.
    do 8 (destruct i as [|i]; [vm_compute; discriminate|]). lia.
Qed.

(** X8 on the constructor's board: the first press of 'c' selects blue and
    prints "Green". *)
Lemma color_key_prints_the_previous_name_witness :
  let self := GestureDrawingBoard_init true in
  color_key_print self = Some "Green"%string
  /\ Some (current_color (press KEY_C 720 1280 self)) = Some (255, 0, 0).
Proof.
  intros self.
  pose proof (color_key_prints_the_previous_name self 720%nat 1280%nat 1%nat (0, 255, 0)
                eq_refl eq_refl) as (H1 & H2 & _).
  split; [exact H1|exact H2].
Defined.

(** ** What the loop keeps *)

Lemma draw_on_canvas_tools (self : Board) (x y : Z) (mode : string) :
  let self' := draw_on_canvas self x y mode in
  current_color self' = current_color self /\
  brush_size self' = brush_size self /\
  eraser_size self' = eraser_size self /\
  SCREEN_WIDTH self' = SCREEN_WIDTH self /\
  SCREEN_HEIGHT self' = SCREEN_HEIGHT self /\
  hand_pos self' = hand_pos self.
Proof.
  unfold draw_on_canvas.
  destruct (String.eqb mode "draw"); [|destruct (String.eqb mode "erase")].
  - destruct (last_draw_point _) as [[x1 y1]|]; simpl; [|done].
    destruct (distance x1 y1 x y <? MAX_JUMP)%float; done.
  - destruct (last_erase_point _) as [[x1 y1]|]; simpl; [|done].
    destruct (distance x1 y1 x y <? MAX_JUMP)%float; done.
  - done.
Qed.

Lemma handle_gestures_tools (self : Board) (hand_x hand_y : option Z)
    (finger_count : Z) :
  let self' := handle_gestures self hand_x hand_y finger_count in
  current_color self' = current_color self /\
  brush_size self' = brush_size self /\
  eraser_size self' = eraser_size self /\
  SCREEN_WIDTH self' = SCREEN_WIDTH self /\
  SCREEN_HEIGHT self' = SCREEN_HEIGHT self /\
  base (canvas self') = base (canvas self).
Proof.
  cbv zeta.
  destruct (handle_gestures_cases self hand_x hand_y finger_count)
    as [->|(x & y & _ & _ & _ & _ & _ & H)]; [done|].
  cbv zeta in H.
  destruct H as [(_ & _ & ->)|[(_ & _ & ->)|[(_ & _ & ->)|(_ & _ & ->)]]];
    try done.
  - pose proof (draw_on_canvas_tools (set_hand_pos (x, y) self) x y "draw")
      as (? & ? & ? & ? & ? & _).
    pose proof (draw_on_canvas_frame (set_hand_pos (x, y) self) x y "draw")
      as (_ & _ & _ & _ & _ & ?). done.
  - pose proof (draw_on_canvas_tools (set_hand_pos (x, y) self) x y "erase")
      as (? & ? & ? & ? & ? & _).
    pose proof (draw_on_canvas_frame (set_hand_pos (x, y) self) x y "erase")
      as (_ & _ & _ & _ & _ & ?). done.
Qed.

(** The calls "Handle gestures" adds: none, a disk, or a disk and a line,
    after the ones the canvas had. *)
Lemma handle_gestures_calls (self : Board) (hand_x hand_y : option Z)
    (finger_count : Z) :
  let self' := handle_gestures self hand_x hand_y finger_count in
  calls (canvas self') = calls (canvas self) ++ issued self self'
  /\ (length (issued self self') <= 2)%nat.
Proof.
  cbv zeta.
  assert (Hsame : forall self', canvas self' = canvas self ->
            calls (canvas self') = calls (canvas self) ++ issued self self'
            /\ (length (issued self self') <= 2)%nat).
  { intros self' E. rewrite (issued_same_canvas _ _ E), E, app_nil_r.
    simpl. split; [reflexivity|lia]. }
  destruct (handle_gestures_cases self hand_x hand_y finger_count)
    as [->|(x & y & _ & _ & _ & _ & _ & H)]; [apply Hsame; reflexivity|].
  cbv zeta in H.
  destruct H as [(_ & _ & ->)|[(_ & _ & ->)|[(_ & _ & ->)|(_ & _ & ->)]]].
  - rewrite (issued_hand_pos _ _ (x, y)), draw_issued, draw_calls. simpl.
    split; [reflexivity|]. repeat case_match; simpl; lia.
  - apply Hsame. reflexivity.
  - rewrite (issued_hand_pos _ _ (x, y)), erase_issued, erase_calls. simpl.
    split; [reflexivity|]. repeat case_match; simpl; lia.
  - apply Hsame. reflexivity.
Qed.

Lemma well_shaped_init_canvas (self : Board) (width height : nat) :
  well_shaped (base (canvas (init_canvas self width height))).
Proof.
  unfold well_shaped. simpl. split.
  - rewrite length_map, length_replicate. reflexivity.
  - apply Forall_forall. intros row Hrow.
    apply list_elem_of_fmap in Hrow as (row0 & -> & Hrow0).
    apply elem_of_replicate in Hrow0 as [-> _].
    rewrite length_map, length_replicate. reflexivity.
Qed.

(** The frame of an iteration sets the screen size to its shape. *)
Lemma before_gestures_screen {libm : Libm} (st stA : RunState) (h w : nat)
    (out : HandsOutput) (g : option Z * option Z * Z) :
  before_gestures st h w out = (stA, g) ->
  SCREEN_HEIGHT (board stA) = h /\ SCREEN_WIDTH (board stA) = w
  /\ shape (base (canvas (board stA))) = (h, w)
  /\ (well_shaped (base (canvas (board st))) ->
      well_shaped (base (canvas (board stA))))
  /\ current_color (board stA) = current_color (board st)
  /\ brush_size (board stA) = brush_size (board st)
  /\ eraser_size (board stA) = eraser_size (board st).
Proof.
  intros Hb. apply before_gestures_eq in Hb as [_ ->].
  set (self := resize_canvas (board st) h w).
  assert (Hself : SCREEN_HEIGHT self = h /\ SCREEN_WIDTH self = w
            /\ shape (base (canvas self)) = (h, w)
            /\ (well_shaped (base (canvas (board st))) ->
                well_shaped (base (canvas self)))
            /\ current_color self = current_color (board st)
            /\ brush_size self = brush_size (board st)
            /\ eraser_size self = eraser_size (board st)).
  { subst self. unfold resize_canvas. simpl.
    destruct (decide (shape (base (canvas (board st))) ≠ (h, w))) as [Hne|Heq];
      simpl; split_and!; try reflexivity.
    - intros _. apply (well_shaped_init_canvas (set_SCREEN w h (board st))).
    - destruct (decide (shape (base (canvas (board st))) = (h, w))) as [E|E];
        [exact E|destruct (Heq E)].
    - intros Hw. exact Hw. }
  unfold gesture_change. simpl.
  destruct (negb _); simpl; exact Hself.
Qed.

(** What a key press does to colour, sizes, screen and canvas array. *)
Lemma handle_key_tools (self : Board) (h w : nat) (key : Z) :
  let self' := (handle_key self h w key).1 in
  (current_color self' = current_color self \/ current_color self' ∈ colors)
  /\ (brush_size self' = brush_size self \/ brush_size self' ∈ sizes)
  /\ eraser_size self' = eraser_size self
  /\ SCREEN_WIDTH self' = SCREEN_WIDTH self
  /\ SCREEN_HEIGHT self' = SCREEN_HEIGHT self
  /\ (canvas self' = canvas self
      \/ canvas self' = canvas (init_canvas self w h)).
Proof.
  unfold handle_key. cbv zeta.
  repeat case_match; simpl; split_and!;
    first [ reflexivity
          | left; reflexivity
          | right; reflexivity
          | right; eapply list_elem_of_lookup_2; eassumption ].
Qed.

(** The frame of an iteration, from what "Read frame from camera"
    delivers. *)
Lemma enter_frame_acquire {libm : Libm} (st : RunState) (inp : LoopInput)
    (h w : nat) :
  (acquire (board st) (cap_read inp)).2 = Some (h, w) ->
  enter_frame st inp = Some (before_gestures st h w (hands_output inp)).
Proof.
  unfold enter_frame.
  destruct (acquire (board st) (cap_read inp)) as [self [[h' w']|]] eqn:Ha;
    simpl; [|discriminate].
  intros E. injection E as -> ->. apply acquire_Some in Ha as ->.
  rewrite with_board_same. reflexivity.
Qed.

(** The canvas after a frame: the array the resize step left, and the
    calls on it followed by those of the gesture. *)
Lemma tick_canvas {libm : Libm} (st : RunState) (h w : nat) (out : HandsOutput) :
  let stA := (before_gestures st h w out).1 in
  base (canvas (board (tick st h w out)))
  = base (canvas (resize_canvas (board st) h w))
  /\ calls (canvas (board (tick st h w out)))
     = calls (canvas (resize_canvas (board st) h w))
       ++ issued (board stA) (board (tick st h w out))
  /\ (length (issued (board stA) (board (tick st h w out))) <= 2)%nat.
Proof.
  cbv zeta.
  destruct (before_gestures st h w out) as [stA [[hand_x hand_y] fc]] eqn:Hb.
  pose proof (before_gestures_canvas st h w out) as HcA.
  rewrite Hb in HcA. simpl in HcA. simpl.
  rewrite (tick_eq _ _ _ _ _ _ _ _ Hb). simpl.
  pose proof (handle_gestures_calls (board stA) hand_x hand_y fc) as [Hc Hl].
  pose proof (handle_gestures_tools (board stA) hand_x hand_y fc)
    as (_ & _ & _ & _ & _ & Hbase).
  cbv zeta in Hc, Hl, Hbase.
  rewrite Hbase, Hc, HcA. done.
Qed.

(** C9. [init_canvas self width height] leaves a surface of [height] rows
    and [width] columns whose every pixel is the dark gray (20, 20, 20),
    with no pixel outside and no drawing call on it; the result does not
    depend on the canvas the board had.  The constructor calls it (with
    1920 and 1080), and so does every frame whose shape differs from the
    canvas's, before the gesture is handled: after such a frame, and at
    the end of its iteration in every state of the loop, the canvas array
    is the fresh one of the frame's shape and the only calls on it are the
    at most two of that frame.  A frame of the same shape leaves the
    canvas array as it was. *)
Theorem init_canvas_fills_background {libm : Libm} :
  forall (self : Board) (width height : nat),
    let self' := init_canvas self width height in
    shape (base (canvas self')) = (height, width)
    /\ (forall r c, (r < height)%nat -> (c < width)%nat ->
          pixel (base (canvas self')) r c = Some (20, 20, 20))
    /\ (forall r c color, pixel (base (canvas self')) r c = Some color ->
          (r < height)%nat /\ (c < width)%nat)
    /\ calls (canvas self') = []
    /\ (forall other, canvas (init_canvas other width height) = canvas self')
    /\ (forall camera_ok,
          canvas (GestureDrawingBoard_init camera_ok)
          = canvas (init_canvas self 1920 1080))
    /\ (forall st h w out,
          shape (base (canvas (board st))) ≠ (h, w) ->
          canvas (board (before_gestures st h w out).1)
          = canvas (init_canvas self w h))
    /\ (forall st h w out,
          shape (base (canvas (board st))) = (h, w) ->
          canvas (board (before_gestures st h w out).1) = canvas (board st))
    /\ (forall st h w out,
          shape (base (canvas (board st))) ≠ (h, w) ->
          base (canvas (board (tick st h w out)))
          = base (canvas (init_canvas self w h))
          /\ calls (canvas (board (tick st h w out)))
             = issued (board (before_gestures st h w out).1)
                 (board (tick st h w out))
          /\ (length (calls (canvas (board (tick st h w out)))) <= 2)%nat)
    /\ (forall st h w out,
          shape (base (canvas (board st))) = (h, w) ->
          base (canvas (board (tick st h w out))) = base (canvas (board st)))
    /\ (forall st inp h w,
          reachable st ->
          (acquire (board st) (cap_read inp)).2 = Some (h, w) ->
          shape (base (canvas (board st))) ≠ (h, w) ->
          base (canvas (board (loop_body st inp).1))
          = base (canvas (init_canvas self w h))
          /\ (length (calls (canvas (board (loop_body st inp).1))) <= 2)%nat).
Proof.
  intros self width height self'. subst self'. split_and!.
  - reflexivity.
  - intros r c Hr Hc. rewrite pixel_init_canvas, decide_True by done.
    reflexivity.
  - intros r c color. rewrite pixel_init_canvas.
    destruct (decide _) as [H|H]; [done|discriminate].
  - reflexivity.
  - reflexivity.
  - reflexivity.
  - intros st h w out H.
    rewrite before_gestures_canvas, resize_canvas_canvas, decide_True by done.
    reflexivity.
  - intros st h w out H.
    rewrite before_gestures_canvas, resize_canvas_canvas.
    rewrite decide_False by (intros Hne; apply Hne, H). reflexivity.
  - intros st h w out H.
    pose proof (tick_canvas st h w out) as (Hbase & Hcalls & Hlen).
    cbv zeta in Hcalls, Hlen.
    rewrite resize_canvas_canvas, decide_True in Hbase, Hcalls by done.
    split_and!; [exact Hbase|exact Hcalls|].
    rewrite Hcalls. exact Hlen.
  - intros st h w out H.
    pose proof (tick_canvas st h w out) as (Hbase & _).
    rewrite resize_canvas_canvas in Hbase.
    rewrite decide_False in Hbase by (intros Hne; apply Hne, H).
    exact Hbase.
  - intros st inp h w Hr Ha H.
    pose proof (reachable_invariant st Hr) as (Hcb & _).
    pose proof (enter_frame_acquire st inp h w Ha) as Hf.
    destruct (before_gestures st h w (hands_output inp))
      as [stA [[hand_x hand_y] fc]] eqn:Hb.
    destruct (loop_body_frame_state _ _ _ _ _ _ Hcb Hf)
      as (h' & w' & key & Hb' & _ & ->).
    assert (h' = h /\ w' = w) as [-> ->].
    { pose proof (before_gestures_screen _ _ _ _ _ _ Hb') as (E1 & E2 & _).
      pose proof (before_gestures_screen _ _ _ _ _ _ Hb) as (E3 & E4 & _).
      split; congruence. }
    pose proof (tick_canvas st h w (hands_output inp)) as (Hbase & Hcalls & Hlen).
    cbv zeta in Hcalls, Hlen.
    rewrite Hb in Hcalls, Hlen. simpl in Hcalls, Hlen.
    rewrite (tick_eq _ _ _ _ _ _ _ _ Hb) in Hbase, Hcalls, Hlen.
    simpl in Hbase, Hcalls, Hlen.
    rewrite resize_canvas_canvas, decide_True in Hbase, Hcalls by done.
    simpl in Hcalls.
    set (self1 := handle_gestures (board stA) hand_x hand_y fc) in *.
    pose proof (handle_key_tools self1 h w key) as (_ & _ & _ & _ & _ & Hcan).
    cbv zeta in Hcan. simpl.
    destruct Hcan as [-> | ->].
    + split; [exact Hbase|]. rewrite Hcalls. exact Hlen.
    + split; [reflexivity|]. simpl. lia.
Qed.

(** X9. In every state of the loop the current colour is one of the eight
    palette colours, the brush size is one of 5, 8, 12, 20, 30, 50, the
    eraser size is 40, the canvas array has the shape of the screen size
    last recorded, and its rows have that shape. *)
Theorem loop_keeps_tools_and_canvas_shape {libm : Libm} :
  forall st : RunState,
    reachable st ->
    current_color (board st) ∈ colors
    /\ brush_size (board st) ∈ sizes
    /\ eraser_size (board st) = 40
    /\ shape (base (canvas (board st)))
       = (SCREEN_HEIGHT (board st), SCREEN_WIDTH (board st))
    /\ well_shaped (base (canvas (board st))).
Proof.
  induction 1 as [camera_ok hands_ok|st inp st' Hr IH Hl].
  - split_and!.
    + apply (list_elem_of_lookup_2 colors 1%nat). reflexivity.
    + apply (list_elem_of_lookup_2 sizes 1%nat). reflexivity.
    + reflexivity.
    + reflexivity.
    + apply well_shaped_init_canvas.
  - destruct IH as (Hc & Hb & He & Hs & Hw).
    pose proof (reachable_invariant st Hr) as (Hcb & _).
    destruct (enter_frame st inp) as [[stA [[hand_x hand_y] finger_count]]|]
      eqn:Hf.
    + destruct (loop_body_frame_state _ _ _ _ _ _ Hcb Hf)
        as (h & w & key & Hbg & _ & Hl').
      rewrite Hl in Hl'. simpl in Hl'. subst st'. simpl.
      pose proof (before_gestures_screen _ _ _ _ _ _ Hbg)
        as (HhA & HwA & HsA & HwsA & HcA & HbA & HeA).
      pose proof (handle_gestures_tools (board stA) hand_x hand_y finger_count)
        as (Hcg & Hbg' & Heg & Hwg & Hhg & Hbase).
      set (self' := handle_gestures (board stA) hand_x hand_y finger_count) in *.
      pose proof (handle_key_tools self' h w key)
        as (Hck & Hbk & Hek & Hwk & Hhk & Hcan).
      cbv zeta in Hck, Hbk, Hek, Hwk, Hhk, Hcan.
      split_and!.
      * destruct Hck as [->|Hin]; [congruence|exact Hin].
      * destruct Hbk as [->|Hin]; [congruence|exact Hin].
      * congruence.
      * destruct Hcan as [-> | ->]; simpl; congruence.
      * destruct Hcan as [-> | ->];
          [rewrite Hbase; apply HwsA, Hw|apply well_shaped_init_canvas].
    + unfold enter_frame, loop_body in *.
      destruct (acquire (board st) (cap_read inp)) as [self [[h w]|]] eqn:Ha;
        [discriminate|].
      injection Hl as <-. simpl.
      unfold acquire in Ha.
      destruct (negb (mouse_mode (board st)) && cap_opened (board st));
        [destruct (cap_read inp)|]; try discriminate.
      injection Ha as <-. simpl. done.
Qed.

(** X9 on the state a session starts in. *)
Lemma loop_keeps_tools_and_canvas_shape_witness :
  eraser_size (board Sample.start) = 40
  /\ shape (base (canvas (board Sample.start))) = (1080, 1920)%nat.
Proof.
  pose proof (loop_keeps_tools_and_canvas_shape Sample.start
                (reachable_start true true)) as (_ & _ & He & Hs & _).
  split; [exact He|exact Hs].
Defined.

(** X10. A frame that has the shape of the canvas adds to the drawing and
    never takes from it: the calls after the frame are the calls before it
    followed by those the frame issued, which are at most two (a disk and
    a line), and the canvas array is untouched.  The same holds for the
    whole iteration in a state of the loop, unless the key is 'r'. *)
Theorem drawing_persists_across_frames {libm : Libm} :
  forall (st : RunState) (h w : nat) (out : HandsOutput),
    shape (base (canvas (board st))) = (h, w) ->
    let st' := tick st h w out in
    calls (canvas (board st'))
    = calls (canvas (board st)) ++ issued (board st) (board st')
    /\ (length (issued (board st) (board st')) <= 2)%nat
    /\ base (canvas (board st')) = base (canvas (board st))
    /\ (forall inp,
          reachable st ->
          cap_read inp = Some (h, w) ->
          mouse_mode (board st) = false -> cap_opened (board st) = true ->
          hands_output inp = out ->
          Z.land (wait_key inp) 255 <> KEY_R ->
          canvas (board (loop_body st inp).1) = canvas (board st')).
Proof.
  intros st h w out Hshape st'.
  destruct (before_gestures st h w out) as [stA [[hand_x hand_y] fc]] eqn:Hb.
  assert (HcA : canvas (board stA) = canvas (board st)).
  { change stA with (stA, (hand_x, hand_y, fc)).1. rewrite <- Hb.
    rewrite before_gestures_canvas, resize_canvas_canvas.
    rewrite decide_False by (intros Hne; apply Hne, Hshape). reflexivity. }
  assert (Ht : board st' = handle_gestures (board stA) hand_x hand_y fc)
    by (subst st'; rewrite (tick_eq _ _ _ _ _ _ _ _ Hb); reflexivity).
  pose proof (handle_gestures_calls (board stA) hand_x hand_y fc) as [Hc Hl].
  pose proof (handle_gestures_tools (board stA) hand_x hand_y fc)
    as (_ & _ & _ & _ & _ & Hbase).
  cbv zeta in Hc, Hl, Hbase. rewrite <- Ht in Hc, Hl, Hbase.
  assert (Hi : issued (board st) (board st') = issued (board stA) (board st'))
    by (unfold issued; rewrite HcA; reflexivity).
  split_and!.
  - rewrite Hi, <- HcA. exact Hc.
  - rewrite Hi. exact Hl.
  - rewrite Hbase, HcA. reflexivity.
  - intros inp Hr Hread Hm Hcap Hout Hkey.
    pose proof (reachable_invariant st Hr) as (Hcb & _).
    pose proof (enter_frame_camera st inp h w Hm Hcap Hread) as Hf.
    rewrite Hout, Hb in Hf.
    destruct (loop_body_frame _ _ _ _ _ _ Hf) as (h' & w' & Hb' & ->).
    pose proof (before_gestures_frame _ _ _ _ _ _ _ _ Hb')
      as (_ & _ & _ & _ & _ & HcbA & _).
    cbv zeta. simpl. rewrite HcbA, Hcb, <- Ht.
    unfold handle_key, KEY_R in *.
    repeat case_match; simpl; try reflexivity.
    exfalso. apply Hkey. apply Z.eqb_eq. assumption.
Qed.

(** X10 on a session that has drawn at (10, 11): the next frame, with two
    fingers at (15, 11), keeps the disk and adds a disk and a line. *)
Lemma drawing_persists_across_frames_witness :
  let st := Sample.after [Sample.frame (Sample.two_fingers Sample.tip_10_11)] in
  let st' := tick st 720 1280 (Sample.two_fingers Sample.tip_15_11) in
  calls (canvas (board st'))
  = calls (canvas (board st)) ++ issued (board st) (board st')
  /\ (length (issued (board st) (board st')) <= 2)%nat.
Proof.
  intros st st'.
  pose proof (drawing_persists_across_frames st 720 1280
                (Sample.two_fingers Sample.tip_15_11)
                ltac:(vm_compute; reflexivity)) as (H1 & H2 & _).
  split; [exact H1|exact H2].
Defined.

(** ** After a failed camera read *)

Lemma read_gesture_mouse_mode {libm : Libm} (self : Board) (hands : bool) (h w : nat)
    (out : HandsOutput) :
  mouse_mode self = true -> read_gesture self hands h w out = (None, None, 0).
Proof. intros Hm. unfold read_gesture. rewrite Hm. reflexivity. Qed.

(** One iteration in mouse mode, with the callback not installed. *)
Lemma loop_body_mouse_mode {libm : Libm} (st : RunState) (inp : LoopInput) :
  mouse_callback st = false -> mouse_mode (board st) = true ->
  let st' := (loop_body st inp).1 in
  mouse_mode (board st') = true
  /\ mouse_callback st' = false
  /\ (calls (canvas (board st')) = calls (canvas (board st))
      \/ calls (canvas (board st')) = []).
Proof.
  intros Hcb Hm. cbv zeta.
  assert (Hf : enter_frame st inp
               = Some (before_gestures st (SCREEN_HEIGHT (board st))
                         (SCREEN_WIDTH (board st)) (hands_output inp))).
  { unfold enter_frame, acquire. rewrite Hm. simpl.
    rewrite with_board_same. reflexivity. }
  destruct (before_gestures st _ _ _) as [stA [[hand_x hand_y] fc]] eqn:Hb.
  destruct (loop_body_frame_state _ _ _ _ _ _ Hcb Hf)
    as (h & w & key & Hb' & _ & ->).
  pose proof (before_gestures_frame _ _ _ _ _ _ _ _ Hb')
    as (_ & _ & _ & HmA & _ & HcbA & _).
  pose proof (before_gestures_canvas st h w (hands_output inp)) as HcA.
  rewrite Hb' in HcA. simpl in HcA.
  assert (Hg : (hand_x, hand_y, fc) = (None, None, 0)).
  { apply before_gestures_eq in Hb' as [-> _].
    apply read_gesture_mouse_mode.
    pose proof (resize_canvas_frame (board st) h w) as (_ & _ & _ & -> & _).
    exact Hm. }
  injection Hg as -> -> ->.
  rewrite handle_gestures_skipped by reflexivity.
  simpl.
  pose proof (handle_key_frame (board stA) h w key) as (_ & _ & Hmk & _).
  pose proof (handle_key_tools (board stA) h w key)
    as (_ & _ & _ & _ & _ & Hcan).
  cbv zeta in Hmk, Hcan.
  split_and!.
  - congruence.
  - congruence.
  - destruct Hcan as [-> | ->]; [|right; reflexivity].
    rewrite HcA, resize_canvas_canvas.
    destruct (decide _); [right|left]; reflexivity.
Qed.

(** X11. A camera read that fails puts the board in mouse mode and ends
    the iteration there, canvas and slots untouched.  From then on the
    board stays in mouse mode, and since the mouse callback is not
    installed nothing draws any more: through every later run of the loop
    the drawing calls on the canvas are those it had, or none after a
    clear. *)
Theorem failed_read_ends_all_drawing {libm : Libm} :
  forall st : RunState,
    reachable st ->
    (forall inp,
       mouse_mode (board st) = false -> cap_opened (board st) = true ->
       cap_read inp = None ->
       loop_body st inp
       = (with_board st (set_mouse_mode true (board st)), Continue))
    /\ (mouse_mode (board st) = true ->
        forall inputs,
          mouse_mode (board (run_through st inputs)) = true
          /\ (calls (canvas (board (run_through st inputs)))
              = calls (canvas (board st))
              \/ calls (canvas (board (run_through st inputs))) = [])).
Proof.
  intros st Hr. split.
  - intros inp Hm Hc Hread. unfold loop_body, acquire.
    rewrite Hm, Hc, Hread. reflexivity.
  - intros Hm inputs.
    pose proof (reachable_invariant st Hr) as (Hcb & _). clear Hr.
    revert st Hm Hcb.
    induction inputs as [|inp rest IH]; intros st Hm Hcb.
    + simpl. split; [exact Hm|left; reflexivity].
    + pose proof (loop_body_mouse_mode st inp Hcb Hm) as (Hm1 & Hcb1 & Hc1).
      cbv zeta in Hm1, Hcb1, Hc1.
      change (run_through st (inp :: rest))
        with (run_through (loop_body st inp).1 rest).
      destruct (IH _ Hm1 Hcb1) as [Hm2 Hc2].
      split; [exact Hm2|].
      destruct Hc2 as [Hc2|Hc2]; [|right; exact Hc2].
      rewrite Hc2. exact Hc1.
Qed.

(** X11 on a session that has drawn at (10, 11) and then loses the camera:
    two further frames with two raised fingers draw nothing. *)
Lemma failed_read_ends_all_drawing_witness :
  let lost :=
    {| cap_read := None; hands_output := Sample.no_hand;
       raised := None; mouse_events := []; wait_key := -1 |} in
  let st := Sample.after
              [Sample.frame (Sample.two_fingers Sample.tip_10_11); lost] in
  let inputs := [Sample.frame (Sample.two_fingers Sample.tip_15_11);
                 Sample.frame (Sample.two_fingers Sample.tip_far)] in
  mouse_mode (board (run_through st inputs)) = true
  /\ (calls (canvas (board (run_through st inputs))) = calls (canvas (board st))
      \/ calls (canvas (board (run_through st inputs))) = []).
Proof.
  intros lost st inputs.
  refine (proj2 (failed_read_ends_all_drawing st _) _ inputs).
  - apply reachable_after. reflexivity.
  - reflexivity.
Defined.

(** ** Leaving the loop *)

(** X12. With the calls before the display taken to return, an iteration
    ends the loop in two cases only: Ctrl-C arrives while its frame is
    displayed, or the display runs through (nothing is raised and the frame
    is at least 400 pixels wide) and the low byte of the key code is 27
    (ESC).  An iteration whose camera read fails
    continues.  On a frame narrower than 400 pixels [draw_ui] raises, and
    the iteration continues in the state the gesture logic left without
    reading the key, ESC included. *)
Theorem loop_ends_on_escape_or_interrupt {libm : Libm} :
  forall (st : RunState) (inp : LoopInput),
    ((loop_body st inp).2 = Break <->
       exists h w,
         (acquire (board st) (cap_read inp)).2 = Some (h, w)
         /\ (raised inp = Some KeyboardInterrupt
             \/ (raised inp = None /\ (400 <= w)%nat
                 /\ Z.land (wait_key inp) 255 = KEY_ESC)))
    /\ (enter_frame st inp = None -> (loop_body st inp).2 = Continue)
    /\ (forall h w,
          (acquire (board st) (cap_read inp)).2 = Some (h, w) ->
          (w < 400)%nat -> raised inp <> Some KeyboardInterrupt ->
          loop_body st inp = (tick st h w (hands_output inp), Continue))
    /\ (forall h w,
          (acquire (board st) (cap_read inp)).2 = Some (h, w) ->
          raised inp = Some KeyboardInterrupt ->
          loop_body st inp = (tick st h w (hands_output inp), Break))
    /\ (forall self h w, handle_key self h w KEY_ESC = (self, Break)).
Proof.
  intros st inp.
  assert (Hframe : forall h w,
            (acquire (board st) (cap_read inp)).2 = Some (h, w) ->
            loop_body st inp =
            let st2 := tick st h w (hands_output inp) in
            match display w (raised inp) with
            | Some KeyboardInterrupt => (st2, Break)
            | Some Exception => (st2, Continue)
            | None =>
                let self :=
                  if mouse_callback st2
                  then fold_left handle_mouse (mouse_events inp) (board st2)
                  else board st2 in
                (with_board st2
                   (handle_key self h w (Z.land (wait_key inp) 255)).1,
                 (handle_key self h w (Z.land (wait_key inp) 255)).2)
            end).
  { intros h w Ha. unfold loop_body.
    destruct (acquire (board st) (cap_read inp)) as [self [[h' w']|]] eqn:Ha';
      simpl in Ha; [|discriminate].
    injection Ha as -> ->. apply acquire_Some in Ha' as ->.
    rewrite with_board_same. cbv zeta.
    destruct (display w (raised inp)) as [[|]|]; try reflexivity.
    destruct (handle_key _ h w _) as [self' ctl]. reflexivity. }
  assert (Hnone : enter_frame st inp = None ->
                  (loop_body st inp).2 = Continue).
  { unfold enter_frame, loop_body.
    destruct (acquire (board st) (cap_read inp)) as [self [[h w]|]];
      [discriminate|reflexivity]. }
  split_and!.
  - destruct (acquire (board st) (cap_read inp)).2 as [[h w]|] eqn:Ha.
    + rewrite (Hframe h w eq_refl). cbv zeta. unfold display, KEY_ESC.
      split.
      * intros Hbreak. exists h, w. split; [reflexivity|].
        destruct (raised inp) as [[|]|]; [left; reflexivity|discriminate|].
        right. destruct (Nat.ltb_spec w 400); [discriminate|].
        simpl in Hbreak. rewrite handle_key_control in Hbreak.
        destruct (Z.eqb_spec (Z.land (wait_key inp) 255) 27);
          [done|discriminate].
      * intros (h' & w' & Hhw & Hcase). injection Hhw as <- <-.
        destruct Hcase as [-> | (-> & Hw & Hkey)]; [reflexivity|].
        destruct (Nat.ltb_spec w 400); [lia|].
        simpl. rewrite handle_key_control, Hkey. reflexivity.
    + assert (Hc : (loop_body st inp).2 = Continue).
      { apply Hnone. unfold enter_frame.
        destruct (acquire (board st) (cap_read inp)) as [self [[h w]|]];
          [discriminate|reflexivity]. }
      rewrite Hc. split; [discriminate|].
      intros (h & w & Hhw & _). discriminate.
  - exact Hnone.
  - intros h w Ha Hw Hr. rewrite (Hframe h w Ha). cbv zeta. unfold display.
    destruct (raised inp) as [[|]|]; [done|reflexivity|].
    destruct (Nat.ltb_spec w 400); [reflexivity|lia].
  - intros h w Ha Hr. rewrite (Hframe h w Ha). cbv zeta. rewrite Hr.
    reflexivity.
  - reflexivity.
Qed.

(** X12 on a 320 x 240 frame with ESC pressed: the key is not read and the
    loop goes on. *)
Lemma loop_ends_on_escape_or_interrupt_witness :
  let inp :=
    {| cap_read := Some (240, 320)%nat; hands_output := Sample.no_hand;
       raised := None; mouse_events := []; wait_key := 27 |} in
  (loop_body Sample.start inp).2 = Continue.
Proof.
  intros inp.
  pose proof (loop_ends_on_escape_or_interrupt Sample.start inp)
    as (_ & _ & Hnarrow & _).
  rewrite (Hnarrow 240%nat 320%nat eq_refl ltac:(lia) ltac:(discriminate)).
  reflexivity.
Defined.

(** ** Tracker failures and malformed hands *)

Lemma count_loop_Some {libm : Libm} (landmark : list Landmark.t) (range : list nat) :
  forall c0 e0 c1 e1,
    count_loop landmark range c0 e0 = Some (c1, e1) ->
    (forall i, In i range -> exists b, is_extended landmark i = Some b)
    /\ c1 = c0 + Z.of_nat (length (List.filter (passes landmark) range))
    /\ e1 = e0 ++ List.filter (passes landmark) range.
Proof.
  induction range as [|i range IH]; intros c0 e0 c1 e1 H.
  - simpl in H. injection H as <- <-. simpl.
    rewrite Z.add_0_r, app_nil_r. split_and!; [intros i []|done|done].
  - cbn [count_loop] in H.
    destruct (is_extended landmark i) as [b|] eqn:Hb; [|discriminate].
    simpl in H.
    assert (Hp : passes landmark i = b) by (unfold passes; rewrite Hb; done).
    cbn [List.filter]. rewrite Hp.
    destruct b; apply IH in H as (Hdef & -> & ->); split_and!.
    + intros j [<-|Hj]; [eauto|apply Hdef, Hj].
    + cbn [length]. lia.
    + rewrite <- app_assoc. reflexivity.
    + intros j [<-|Hj]; [eauto|apply Hdef, Hj].
    + reflexivity.
    + reflexivity.
Qed.

Lemma is_extended_needs_21 {libm : Libm} (landmark : list Landmark.t) (b : bool) :
  is_extended landmark 4 = Some b -> (21 <= length landmark)%nat.
Proof.
  unfold is_extended. simpl.
  destruct (landmark !! 20%nat) as [tip|] eqn:H20; [|discriminate].
  intros _. apply lookup_lt_Some in H20. lia.
Qed.

(** X13. Whatever the tracker does, and on every C library, the
    classifier returns either no cursor, count 0 and no fingers, or, for
    the first hand of a result, the pixel of its index fingertip (landmark
    8 scaled by the frame size and truncated), the list of the fingers
    that pass their test, in increasing order, and its length as the
    count; the latter only for a hand of at least 21 landmarks on which no
    finger's test, the thumb arithmetic included, has raised. *)
Theorem classifier_returns_no_hand_or_a_full_reading {libm : Libm} :
  forall (h w : nat) (out : HandsOutput)
         (hand_x hand_y : option Z) (finger_count : Z) (extended : list nat),
    detect_fingers_mediapipe h w out
      = (hand_x, hand_y, finger_count, extended) ->
    (hand_x = None /\ hand_y = None /\ finger_count = 0 /\ extended = [])
    \/ exists x y landmark others index_tip,
         hand_x = Some x /\ hand_y = Some y
         /\ out = process_returns (Some (landmark :: others))
         /\ (21 <= length landmark)%nat
         /\ landmark !! 8%nat = Some index_tip
         /\ Py.int_of_float
              (Landmark.x index_tip * Py.float_of_int (Z.of_nat w))%float
            = Some x
         /\ Py.int_of_float
              (Landmark.y index_tip * Py.float_of_int (Z.of_nat h))%float
            = Some y
         /\ extended = List.filter (passes landmark) [0; 1; 2; 3; 4]%nat
         /\ finger_count = Z.of_nat (length extended)
         /\ (forall i, In i [0; 1; 2; 3; 4]%nat ->
               is_extended landmark i <> None).
Proof.
  intros h w out hand_x hand_y finger_count extended H.
  unfold detect_fingers_mediapipe in H.
  destruct out as [|[[|landmark others]|]];
    try (injection H as <- <- <- <-; left; done).
  destruct (detect_hand h w landmark) as [[[[x y] fc] ext]|] eqn:E;
    [|injection H as <- <- <- <-; left; done].
  injection H as <- <- <- <-. right.
  apply detect_hand_Some in E as (tip & H8 & Hx & Hy & Hc).
  apply count_loop_Some in Hc as (Hdef & -> & ->).
  destruct (Hdef 4%nat ltac:(simpl; tauto)) as [b Hb].
  apply is_extended_needs_21 in Hb.
  exists x, y, landmark, others, tip.
  split_and!; try done.
  intros i Hi. destruct (Hdef i Hi) as [b' ->]. discriminate.
Qed.

(** X13 on a hand with index and middle raised at pixel (10, 11). *)
Lemma classifier_returns_no_hand_or_a_full_reading_witness :
  (Some 10 = None /\ Some 11 = None /\ 2 = 0 /\ [1; 2]%nat = [])
  \/ exists x y landmark others index_tip,
       Some 10 = Some x /\ Some 11 = Some y
       /\ Sample.two_fingers Sample.tip_10_11
          = process_returns (Some (landmark :: others))
       /\ (21 <= length landmark)%nat
       /\ landmark !! 8%nat = Some index_tip
       /\ Py.int_of_float
            (Landmark.x index_tip * Py.float_of_int (Z.of_nat 1280))%float
          = Some x
       /\ Py.int_of_float
            (Landmark.y index_tip * Py.float_of_int (Z.of_nat 720))%float
          = Some y
       /\ [1; 2]%nat = List.filter (passes landmark) [0; 1; 2; 3; 4]%nat
       /\ 2 = Z.of_nat (length [1; 2]%nat)
       /\ (forall i, In i [0; 1; 2; 3; 4]%nat ->
             is_extended landmark i <> None).
Proof.
  apply (classifier_returns_no_hand_or_a_full_reading 720 1280
           (Sample.two_fingers Sample.tip_10_11) (Some 10) (Some 11) 2
           [1; 2]%nat).
  vm_compute. reflexivity.
Defined.

Lemma int_of_float_mul_nonfinite (a b : float) :
  a = nan \/ a = infinity \/ a = neg_infinity ->
  Py.int_of_float (a * b)%float = None.
Proof.
  intros Ha. unfold Py.int_of_float. rewrite mul_spec.
  destruct Ha as [-> | [-> | ->]].
  - reflexivity.
  - change (Prim2SF infinity) with (S754_infinity false).
    destruct (Prim2SF b); reflexivity.
  - change (Prim2SF neg_infinity) with (S754_infinity true).
    destruct (Prim2SF b); reflexivity.
Qed.

Lemma detect_hand_short {libm : Libm} (h w : nat) (landmark : list Landmark.t) :
  (length landmark < 21)%nat -> detect_hand h w landmark = None.
Proof.
  intros Hlen.
  destruct (detect_hand h w landmark) as [[[[x y] fc] ext]|] eqn:E;
    [|reflexivity].
  apply detect_hand_Some in E as (tip & _ & _ & _ & Hc).
  apply count_loop_Some in Hc as (Hdef & _).
  destruct (Hdef 4%nat ltac:(simpl; tauto)) as [b Hb].
  apply is_extended_needs_21 in Hb. lia.
Qed.

Lemma detect_hand_nonfinite {libm : Libm} (h w : nat) (landmark : list Landmark.t)
    (tip : Landmark.t) :
  landmark !! 8%nat = Some tip ->
  (Landmark.x tip = nan \/ Landmark.x tip = infinity
   \/ Landmark.x tip = neg_infinity)
  \/ (Landmark.y tip = nan \/ Landmark.y tip = infinity
      \/ Landmark.y tip = neg_infinity) ->
  detect_hand h w landmark = None.
Proof.
  intros H8 Hbad.
  destruct (detect_hand h w landmark) as [[[[x y] fc] ext]|] eqn:E;
    [|reflexivity].
  apply detect_hand_Some in E as (tip' & H8' & Hx & Hy & _).
  assert (tip' = tip) as -> by congruence.
  destruct Hbad as [Hbad|Hbad].
  - rewrite (int_of_float_mul_nonfinite _ _ Hbad) in Hx. discriminate.
  - rewrite (int_of_float_mul_nonfinite _ _ Hbad) in Hy. discriminate.
Qed.

Lemma before_gestures_cursorless {libm : Libm} (st : RunState) (h w : nat)
    (out : HandsOutput) :
  detect_fingers_mediapipe h w out = (None, None, 0, []) ->
  (before_gestures st h w out).2 = (None, None, 0).
Proof.
  intros Hd. unfold before_gestures, read_gesture. rewrite Hd.
  destruct (negb _ && _); reflexivity.
Qed.

(** X14. A tracker that raises, a hand with fewer than 21 landmarks, and
    an index fingertip with a NaN or infinite coordinate all make the
    classifier return what it returns for no hand; and in every state of
    the loop a frame with that reading handles no gesture: no drawing call
    is issued and both slots are empty after it. *)
Theorem tracker_failure_is_an_idle_frame {libm : Libm} :
  forall (st : RunState) (h w : nat) (out : HandsOutput),
    reachable st ->
    (out = process_raises ->
     detect_fingers_mediapipe h w out = (None, None, 0, []))
    /\ (forall landmark others,
          out = process_returns (Some (landmark :: others)) ->
          (length landmark < 21)%nat ->
          detect_fingers_mediapipe h w out = (None, None, 0, []))
    /\ (forall landmark others tip,
          out = process_returns (Some (landmark :: others)) ->
          landmark !! 8%nat = Some tip ->
          (Landmark.x tip = nan \/ Landmark.x tip = infinity
           \/ Landmark.x tip = neg_infinity)
          \/ (Landmark.y tip = nan \/ Landmark.y tip = infinity
              \/ Landmark.y tip = neg_infinity) ->
          detect_fingers_mediapipe h w out = (None, None, 0, []))
    /\ (detect_fingers_mediapipe h w out = (None, None, 0, []) ->
        tick st h w out = (before_gestures st h w out).1
        /\ issued (board (before_gestures st h w out).1)
             (board (tick st h w out)) = []
        /\ last_draw_point (board (tick st h w out)) = None
        /\ last_erase_point (board (tick st h w out)) = None).
Proof.
  intros st h w out Hr. split_and!.
  - intros ->. reflexivity.
  - intros landmark others -> Hlen. unfold detect_fingers_mediapipe.
    rewrite (detect_hand_short h w landmark Hlen). reflexivity.
  - intros landmark others tip -> H8 Hbad. unfold detect_fingers_mediapipe.
    rewrite (detect_hand_nonfinite h w landmark tip H8 Hbad). reflexivity.
  - intros Hd.
    pose proof (reachable_invariant st Hr) as (_ & HD & HE & Hs).
    pose proof (before_gestures_cursorless st h w out Hd) as Hg.
    set (stA := (before_gestures st h w out).1) in *.
    assert (Hb : before_gestures st h w out = (stA, (None, None, 0)))
      by (apply pair_eta, Hg).
    pose proof (before_gestures_frame _ _ _ _ _ _ _ _ Hb)
      as (HD' & HE' & _ & _ & _ & _ & Hfc & _).
    pose proof (slots_follow_before _ _ _ _ _ _ Hb Hs) as HsA.
    assert (Ht : tick st h w out = stA).
    { rewrite (tick_eq _ _ _ _ _ _ _ _ Hb).
      rewrite handle_gestures_skipped by reflexivity. apply with_board_same. }
    rewrite Ht. split_and!.
    + reflexivity.
    + apply issued_same_canvas. reflexivity.
    + apply (slots_empty_when_idle stA HsA).
      rewrite Hfc. unfold action_mode. rewrite HD', HE', HD, HE. reflexivity.
    + apply (slots_empty_when_idle stA HsA).
      rewrite Hfc. unfold action_mode. rewrite HD', HE', HD, HE. reflexivity.
Qed.

(** X14 on a session that has drawn at (10, 11), when the tracker raises
    on the next frame. *)
Lemma tracker_failure_is_an_idle_frame_witness :
  let st := Sample.after [Sample.frame (Sample.two_fingers Sample.tip_10_11)] in
  last_draw_point (board (tick st 720 1280 process_raises)) = None.
Proof.
  intros st.
  refine (proj1 (proj2 (proj2 (proj2 (proj2 (proj2
    (tracker_failure_is_an_idle_frame st 720 1280 process_raises _))) eq_refl)))).
  apply reachable_after. reflexivity.
Defined.

(** ** The frame counter: [update_fps] *)

Lemma update_fps_quiet (self : FpsCounter) (times : list float) :
  Forall (fun t => (1 <=? t - last_fps_time self)%float = false) times ->
  fold_left update_fps times self =
  {| frame_count := frame_count self + Z.of_nat (length times);
     fps := fps self; last_fps_time := last_fps_time self |}.
Proof.
  revert self. induction times as [|t times IH]; intros self Hq.
  - simpl. rewrite Z.add_0_r. destruct self; reflexivity.
  - apply Forall_cons in Hq as [Ht Hq]. cbn [fold_left].
    assert (Hs : update_fps self t =
                 {| frame_count := frame_count self + 1; fps := fps self;
                    last_fps_time := last_fps_time self |})
      by (unfold update_fps; rewrite Ht; reflexivity).
    rewrite Hs, IH by (simpl; exact Hq). simpl. f_equal. lia.
Qed.

(** X15. Between two reports the counter only counts: calls made before a
    full second has passed since the last report add one each to
    [frame_count] and leave [fps] alone; the first call at least a second
    after the last report stores in [fps] the number of calls since that
    report, itself included, restarts the count at 0 and takes its time as
    the time of the report. *)
Theorem fps_is_the_number_of_calls_since_the_last_report :
  forall (self : FpsCounter) (times : list float) (t : float),
    Forall (fun t' => (1 <=? t' - last_fps_time self)%float = false) times ->
    (1 <=? t - last_fps_time self)%float = true ->
    fold_left update_fps times self =
    {| frame_count := frame_count self + Z.of_nat (length times);
       fps := fps self; last_fps_time := last_fps_time self |}
    /\ fold_left update_fps (times ++ [t]) self =
       {| frame_count := 0;
          fps := frame_count self + Z.of_nat (length times) + 1;
          last_fps_time := t |}.
Proof.
  intros self times t Hq Ht. split; [apply update_fps_quiet, Hq|].
  rewrite fold_left_app, (update_fps_quiet self times Hq). simpl.
  unfold update_fps. simpl. rewrite Ht. reflexivity.
Qed.

(** X15 with a report at time 10 and calls at 10.25, 10.5 and 11. *)
Lemma fps_is_the_number_of_calls_since_the_last_report_witness :
  fold_left update_fps [10.25; 10.5; 11]%float
    {| frame_count := 0; fps := 0; last_fps_time := 10 |}
  = {| frame_count := 0; fps := 3; last_fps_time := 11 |}.
Proof.
  exact (proj2 (fps_is_the_number_of_calls_since_the_last_report
                  {| frame_count := 0; fps := 0; last_fps_time := 10 |}
                  [10.25; 10.5]%float 11%float
                  ltac:(repeat constructor) eq_refl)).
Defined.

(** ** Opening the camera: [init_camera] *)

(** X16. [init_camera] succeeds exactly when one of its three attempts
    reads a frame, and the first such attempt decides: the capture size
    becomes the camera's when the camera is narrower than 1280 and stays
    1280 x 720 otherwise, and later attempts are not made.  When all three
    fail it returns False with the size untouched and the mouse fallback
    requested; it never asks for the fallback on success. *)
Theorem init_camera_takes_the_first_frame :
  forall attempt : nat -> CaptureAttempt,
    let r := init_camera attempt in
    (camera_ok r = true <->
       exists i aw ah, (i < 3)%nat /\ attempt i = capture_frame aw ah)
    /\ fallback r = negb (camera_ok r)
    /\ (forall i aw ah,
          (i < 3)%nat -> attempt i = capture_frame aw ah ->
          (forall j, (j < i)%nat ->
             attempt j = capture_raises \/ attempt j = capture_no_frame) ->
          r = {| camera_ok := true;
                 CAMERA_WIDTH := if aw <? 1280 then aw else 1280;
                 CAMERA_HEIGHT := if aw <? 1280 then ah else 720;
                 fallback := false |})
    /\ (camera_ok r = false ->
        CAMERA_WIDTH r = 1280 /\ CAMERA_HEIGHT r = 720)
    /\ CAMERA_WIDTH r <= 1280
    /\ (forall attempt',
          (forall i, (i < 3)%nat -> attempt' i = attempt i) ->
          init_camera attempt' = r).
Proof.
  intros attempt r. subst r. unfold init_camera. simpl.
  split_and!.
  - split.
    + destruct (attempt 0%nat) as [| |aw ah] eqn:H0;
        [| |exists 0%nat, aw, ah; split; [lia|exact H0]];
        (destruct (attempt 1%nat) as [| |aw ah] eqn:H1;
          [| |exists 1%nat, aw, ah; split; [lia|exact H1]]);
        (destruct (attempt 2%nat) as [| |aw ah] eqn:H2;
          [| |exists 2%nat, aw, ah; split; [lia|exact H2]]);
        discriminate.
    + intros (i & aw & ah & Hi & Ha).
      destruct i as [|[|[|i]]]; [| | |lia];
        repeat (rewrite Ha || case_match); reflexivity.
  - repeat case_match; reflexivity.
  - intros i aw ah Hi Ha Hbefore.
    destruct i as [|[|[|i]]]; [| | |lia].
    + rewrite Ha. case_match; reflexivity.
    + destruct (Hbefore 0%nat ltac:(lia)) as [-> | ->];
        rewrite Ha; case_match; reflexivity.
    + destruct (Hbefore 0%nat ltac:(lia)) as [-> | ->];
        destruct (Hbefore 1%nat ltac:(lia)) as [-> | ->];
        rewrite Ha; case_match; reflexivity.
  - repeat case_match; simpl; done.
  - repeat case_match; simpl; lia.
  - intros attempt' Hsame.
    rewrite !Hsame by lia. reflexivity.
Qed.

(** ** The crosshair of [draw_ui] *)

(** X17. [draw_ui] is called on the board the gesture logic left, with
    the cursor of the frame.  When it draws the crosshair, both coordinates
    are non-zero integers, the gesture logic has recorded them as the hand
    position, and the crosshair is the two lines of half-length 40 and the
    circle of radius 25 centred there; when it draws none, the gesture
    logic has left the board untouched. *)
Theorem crosshair_marks_the_handled_cursor :
  forall (self : Board) (hand_x hand_y : option Z) (finger_count : Z),
    let self' := handle_gestures self hand_x hand_y finger_count in
    (draw_ui_crosshair self' hand_x hand_y <> [] ->
     exists x y,
       hand_x = Some x /\ hand_y = Some y /\ x <> 0 /\ y <> 0
       /\ hand_pos self' = (x, y)
       /\ draw_ui_crosshair self' hand_x hand_y =
          [ cv2_line (x - 40, y) (x + 40, y) (0, 255, 255) 2;
            cv2_line (x, y - 40) (x, y + 40) (0, 255, 255) 2;
            cv2_circle (x, y) 25 (0, 255, 255) 2 ])
    /\ (draw_ui_crosshair self' hand_x hand_y = [] -> self' = self).
Proof.
  intros self hand_x hand_y finger_count self'.
  pose proof (handle_gestures_frame self hand_x hand_y finger_count)
    as (_ & _ & _ & Hm).
  fold self' in Hm.
  unfold draw_ui_crosshair. rewrite Hm.
  destruct (handle_gestures_cases self hand_x hand_y finger_count)
    as [E|(x & y & -> & -> & Hx & Hy & Hmm & H)]; fold self' in E || idtac.
  - destruct (Py.truthy hand_x && Py.truthy hand_y && negb (mouse_mode self))
      eqn:Hc.
    + (* the test holds, yet the board is unchanged *)
      apply andb_prop in Hc as [Hc Hmm]. apply andb_prop in Hc as [Hx Hy].
      destruct hand_x as [x|]; [|discriminate].
      destruct hand_y as [y|]; [|discriminate].
      apply truthy_Some in Hx. apply truthy_Some in Hy.
      split; [|intros _; exact E].
      intros _. exists x, y. split_and!; try done.
      fold self' in E. rewrite E.
      apply negb_true_iff in Hmm.
      pose proof (handle_gestures_present self x y finger_count Hx Hy Hmm)
        as Hp.
      fold self' in Hp. rewrite E in Hp.
      assert (Hh : hand_pos self
                   = hand_pos (handle_gestures self (Some x) (Some y)
                                 finger_count)) by (fold self'; congruence).
      rewrite (handle_gestures_present self x y finger_count Hx Hy Hmm) in Hh.
      cbv zeta in Hh. rewrite Hh.
      repeat case_match;
        try (apply (proj2 (proj2 (proj2 (proj2 (proj2
               (draw_on_canvas_tools (set_hand_pos (x, y) self) x y _)))))));
        reflexivity.
    + split; [intros Hne; destruct (Hne eq_refl)|intros _; exact E].
  - fold self' in H. cbv zeta in H.
    rewrite (proj2 (truthy_Some x) Hx), (proj2 (truthy_Some y) Hy), Hmm.
    simpl. split; [|discriminate].
    intros _. exists x, y. split_and!; try done.
    destruct H as [(_ & _ & ->)|[(_ & _ & ->)|[(_ & _ & ->)|(_ & _ & ->)]]];
      try reflexivity;
      apply (proj2 (proj2 (proj2 (proj2 (proj2
               (draw_on_canvas_tools (set_hand_pos (x, y) self) x y _)))))).
Qed.
